(** * Data-engineering coursework scripts: a shallow embedding

    Three stand-alone Python programs are embedded here:

    - [01-docker-terraform/docker-sql/pipeline/pipeline.py], the pipeline
      runner (module [Pipeline]);
    - [01-docker-terraform/homework01/ingest_homework_data.py], the
      ingestion script (module [Homework], function [Homework.ingest_main]);
    - [01-docker-terraform/homework01/homework_queries.py], the query
      script (module [Homework], function [Homework.queries_main]).

    Every program is a straight line of library calls with side effects
    on the standard output, the file system and a PostgreSQL database.
    The effects are threaded through a small state-and-exception monad in
    which, as in Python, an uncaught exception stops the run but keeps
    every effect that happened before it. *)

From Stdlib Require Import ZArith Lia Ascii String.
From stdpp Require Import base option strings list gmap pretty sorting.

Local Open Scope Z_scope.

(** ** The Python run-time: exceptions and the run monad *)

(** The exception classes that the library calls of the three scripts
    raise. None of the scripts has a [try]: every exception is fatal. *)
Inductive exn : Type :=
  | IndexError          (* sys.argv[1] out of range *)
  | ValueError          (* int() on a string that is no numeral *)
  | KeyError            (* df[name] for an absent column *)
  | OSError             (* a file that cannot be created *)
  | FileNotFoundError   (* an input file that is missing or unreadable *)
  | OperationalError    (* the database server cannot be reached *)
  | DatabaseError.      (* pandas.errors.DatabaseError: the server refused
                           a statement that read_sql sent *)

(** A computation over a world [W]: it ends with a value or with an
    uncaught exception, and in both cases hands back the world as it is
    at that point. *)
Definition py (W A : Type) : Type := W → (exn + A) * W.

#[export] Instance py_ret {W} : MRet (py W) := λ A a w, (inr a, w).

#[export] Instance py_bind {W} : MBind (py W) := λ A B f m w,
  match m w with
  | (inl e, w') => (inl e, w')
  | (inr a, w') => f a w'
  end.

Definition raise {W A} (e : exn) : py W A := λ w, (inl e, w).
Definition modify {W} (f : W → W) : py W unit := λ w, (inr tt, f w).

Definition succeeded {W A} (r : (exn + A) * W) : bool :=
  match r.1 with inr _ => true | inl _ => false end.

(** ** Python built-ins used by the scripts *)

Definition nl : string := String (ascii_of_nat 10) EmptyString.

(** [str(n)] for an integer: the decimal numeral, with a leading minus
    sign for negative numbers. *)
Definition str (n : Z) : string := pretty n.

(** [s * n] on a string. *)
Fixpoint str_mul (s : string) (n : nat) : string :=
  match n with
  | O => EmptyString
  | S n' => s +:+ str_mul s n'
  end.

(** [int(s)] on a string, base 10. The digit loop below is CPython's
    parser for ASCII text: leading white space, an optional sign, digits
    in which single underscores may separate digits, trailing white
    space. A numeral of more than 4300 digits is refused (the
    interpreter's default limit on integer string conversion). *)
Definition py_isspace (c : ascii) : bool :=
  let n := nat_of_ascii c in
  (((9 <=? n) && (n <=? 13)) || (n =? 32))%nat.

Definition digit_value (c : ascii) : option Z :=
  let n := Z.of_nat (nat_of_ascii c) in
  if (48 <=? n) && (n <=? 57) then Some (n - 48) else None.

Definition underscore : ascii := ascii_of_nat 95.
Definition plus_sign : ascii := ascii_of_nat 43.
Definition minus_sign : ascii := ascii_of_nat 45.

Inductive scan_state : Type := AtStart | AfterDigit | AfterUnderscore.

(** The digit loop of the parser: it stops at the first character that
    is neither a digit nor an underscore and returns the value read, the
    number of digits and the rest of the input. *)
Fixpoint scan_digits (st : scan_state) (acc : Z) (digits : nat)
    (l : list ascii) : option (Z * nat * list ascii) :=
  let stop :=
    match st with
    | AfterDigit => Some (acc, digits, l)
    | AtStart | AfterUnderscore => None
    end in
  match l with
  | [] => stop
  | c :: l' =>
      if Ascii.eqb c underscore then
        match st with
        | AfterDigit => scan_digits AfterUnderscore acc digits l'
        | AtStart | AfterUnderscore => None
        end
      else
        match digit_value c with
        | Some d => scan_digits AfterDigit (10 * acc + d) (S digits) l'
        | None => stop
        end
  end.

Fixpoint skip_spaces (l : list ascii) : list ascii :=
  match l with
  | c :: l' => if py_isspace c then skip_spaces l' else l
  | [] => []
  end.

Definition max_str_digits : nat := 4300.

(** The parser proper, on ASCII characters. *)
Definition int_of_ascii (l : list ascii) : option Z :=
  let l := skip_spaces l in
  let '(sign, l) :=
    match l with
    | c :: l' =>
        if Ascii.eqb c plus_sign then (1, l')
        else if Ascii.eqb c minus_sign then (-1, l')
        else (1, l)
    | [] => (1, l)
    end in
  match scan_digits AtStart 0 0 l with
  | Some (v, digits, rest) =>
      match skip_spaces rest with
      | [] => if (digits <=? max_str_digits)%nat then Some (sign * v) else None
      | _ :: _ => None
      end
  | None => None
  end.

(** A string of the program is held here as its UTF-8 bytes, as the
    operating system hands the command-line arguments over; Python sees
    the characters. [utf8_decode] gives the code points, or nothing when
    the bytes are not UTF-8 (Python then sees lone surrogates, which are
    neither digits nor white space). *)
Definition continuation (b : Z) : bool := (128 <=? b) && (b <=? 191).

Fixpoint utf8_decode (l : list Z) : option (list Z) :=
  match l with
  | [] => Some []
  | b0 :: l1 =>
      if b0 <? 128 then cons b0 <$> utf8_decode l1
      else
        match l1 with
        | [] => None
        | b1 :: l2 =>
            if (194 <=? b0) && (b0 <=? 223) then
              if continuation b1
              then cons ((b0 - 192) * 64 + (b1 - 128)) <$> utf8_decode l2
              else None
            else
              match l2 with
              | [] => None
              | b2 :: l3 =>
                  if (224 <=? b0) && (b0 <=? 239) then
                    if ((if b0 =? 224 then 160 else 128) <=? b1) &&
                       (b1 <=? (if b0 =? 237 then 159 else 191)) &&
                       continuation b2
                    then cons ((b0 - 224) * 4096 + (b1 - 128) * 64 + (b2 - 128))
                           <$> utf8_decode l3
                    else None
                  else
                    match l3 with
                    | [] => None
                    | b3 :: l4 =>
                        if (240 <=? b0) && (b0 <=? 244) &&
                           ((if b0 =? 240 then 144 else 128) <=? b1) &&
                           (b1 <=? (if b0 =? 244 then 143 else 191)) &&
                           continuation b2 && continuation b3
                        then cons ((b0 - 240) * 262144 + (b1 - 128) * 4096 +
                                   (b2 - 128) * 64 + (b3 - 128))
                               <$> utf8_decode l4
                        else None
                    end
              end
        end
  end.

Definition bytes_of_string (s : string) : list Z :=
  (λ c, Z.of_nat (nat_of_ascii c)) <$> list_ascii_of_string s.

(** The characters with a decimal digit value come in runs of ten, from
    the digit zero to the digit nine of a script. These are the code
    points of the zeros (Unicode 14.0, the table of CPython 3.11). *)
Definition decimal_zeros : list Z :=
  [
    48; 1632; 1776; 1984; 2406; 2534; 2662; 2790; 2918; 3046; 3174; 3302;
    3430; 3558; 3664; 3792; 3872; 4160; 4240; 6112; 6160; 6470; 6608; 6784;
    6800; 6992; 7088; 7232; 7248; 42528; 43216; 43264; 43472; 43504; 43600;
    44016; 65296; 66720; 68912; 69734; 69872; 69942; 70096; 70384; 70736;
    70864; 71248; 71360; 71472; 71904; 72016; 72784; 73040; 73120; 92768;
    92864; 93008; 120782; 120792; 120802; 120812; 120822; 123200; 123632;
    125264; 130032 ].

Definition unicode_decimal (c : Z) : option Z :=
  match filter (λ z, z ≤ c ≤ z + 9) decimal_zeros with
  | z :: _ => Some (c - z)
  | [] => None
  end.

(** The white space outside ASCII. *)
Definition unicode_space (c : Z) : bool :=
  bool_decide (c ∈ [133; 160; 5760; 8232; 8233; 8239; 8287; 12288]) ||
  ((8192 <=? c) && (c <=? 8202)).

(** Before it parses, [int] rewrites the string to ASCII: characters
    below 127 stay, white space becomes a blank, a decimal digit of any
    script becomes the ASCII digit of the same value, and any other
    character makes the string unreadable. *)
Definition to_ascii (c : Z) : option ascii :=
  if c <? 127 then Some (ascii_of_nat (Z.to_nat c))
  else if unicode_space c then Some (ascii_of_nat 32)
  else (λ d, ascii_of_nat (Z.to_nat (48 + d))) <$> unicode_decimal c.

Definition py_int (s : string) : option Z :=
  chars ← utf8_decode (bytes_of_string s);
  l ← mapM to_ascii chars;
  int_of_ascii l.

(** ** The pipeline runner *)

Module Pipeline.

(** A data frame of integer columns: the row labels and the named
    columns, each column as long as the index. *)
Record DataFrame : Type := {
  index : list nat;
  columns : list (string * list Z)
}.

(** [pd.DataFrame(dict)] for a dict of equally long lists: the rows are
    labelled 0, 1, 2, ... *)
Definition DataFrame_of_dict (d : list (string * list Z)) : DataFrame :=
  {| index := seq 0 (length (default [] (snd <$> head d)));
     columns := d |}.

Definition nrows (df : DataFrame) : nat := length (index df).

(** Row [i] (by position) of a frame: its label and one cell per column. *)
Definition row (df : DataFrame) (i : nat) : option (nat * list Z) :=
  lbl ← index df !! i;
  cells ← mapM (λ c : string * list Z, c.2 !! i) (columns df);
  Some (lbl, cells).

Definition rows (df : DataFrame) : list (nat * list Z) :=
  omap (row df) (seq 0 (nrows df)).

(** [df.head()]: the first five rows. *)
Definition df_head (df : DataFrame) : DataFrame :=
  {| index := take 5 (index df);
     columns := prod_map id (take 5) <$> columns df |}.

(** [series == scalar]: the element-wise comparison. *)
Definition series_eq (col : list Z) (x : Z) : list bool :=
  (λ v, v =? x) <$> col.

(** Selection by a boolean mask. *)
Fixpoint select {A} (mask : list bool) (l : list A) : list A :=
  match mask, l with
  | b :: mask', x :: l' => if b then x :: select mask' l' else select mask' l'
  | _, _ => []
  end.

(** [df[mask]]: the rows where the mask holds, with their labels. *)
Definition df_mask (df : DataFrame) (mask : list bool) : DataFrame :=
  {| index := select mask (index df);
     columns := prod_map id (select mask) <$> columns df |}.

(** What [print] receives. *)
Inductive obj : Type :=
  | Str (s : string)
  | StrList (l : list string)
  | Frame (df : DataFrame).

(** The file system as the script sees it: the parquet files by path, and
    which paths the environment lets the process create or overwrite
    (the directory exists, is writable, the name is acceptable...). *)
Record filesystem : Type := {
  files : gmap string DataFrame;
  writable : string → bool
}.

Record world : Type := {
  stdout : list (list obj);
  fs : filesystem
}.

(** [print(o1, o2, ...)] appends one record to the standard output. The
    standard output takes every string, as it does under the C and POSIX
    locales, where Python opens it with the surrogateescape handler.
    (Where it is opened strictly, printing an argument that is not UTF-8
    raises UnicodeEncodeError, a ValueError, one statement before [int]
    raises its ValueError on the same argument.) *)
Definition print (os : list obj) : py world unit :=
  modify (λ w, {| stdout := stdout w ++ [os]; fs := fs w |}).

(** [argv[i]] *)
Definition argv_getitem (argv : list string) (i : nat) : py world string :=
  match argv !! i with
  | Some s => mret s
  | None => raise IndexError
  end.

(** [int(s)] *)
Definition int (s : string) : py world Z :=
  match py_int s with
  | Some n => mret n
  | None => raise ValueError
  end.

(** [df[name]] *)
Definition df_getitem (df : DataFrame) (name : string) : py world (list Z) :=
  match list_find (λ c, c.1 = name) (columns df) with
  | Some (_, c) => mret c.2
  | None => raise KeyError
  end.

(** [df.to_parquet(path)] creates or overwrites the file. *)
Definition to_parquet (df : DataFrame) (path : string) : py world unit :=
  λ w,
    if writable (fs w) path then
      (inr tt, {| stdout := stdout w;
                  fs := {| files := <[path := df]> (files (fs w));
                           writable := writable (fs w) |} |})
    else (inl OSError, w).

(** The table built at lines 21-24. *)
Definition df : DataFrame :=
  DataFrame_of_dict
    [("month", [1; 2; 3; 4; 5; 6; 7; 8; 9; 10; 11; 12]);
     ("num_passengers", [10; 20; 30; 40; 50; 60; 70; 80; 90; 100; 110; 120])].

Definition df_month (month : Z) : DataFrame :=
  df_mask df (series_eq [1; 2; 3; 4; 5; 6; 7; 8; 9; 10; 11; 12] month).

Definition output_path (month : Z) : string :=
  "01-docker-terraform/docker-sql/pipeline/output_" +:+ str month +:+ ".parquet".

(** The script, top to bottom; [argv] is [sys.argv]. The import of pandas
    at line 19 is taken to succeed. *)
Definition pipeline (argv : list string) : py world unit :=
  print [Str "arguments:"; StrList argv] ;;
  arg1 ← argv_getitem argv 1;
  print [Str (nl +:+ "first argument:"); Str arg1] ;;
  month ← int arg1;
  print [Str (nl +:+ "Running pipeline for month " +:+ str month)] ;;
  print [Str (nl +:+ "Dataframe:")] ;;
  print [Frame (df_head df)] ;;
  col ← df_getitem df "month";
  let df_month := df_mask df (series_eq col month) in
  print [Str (nl +:+ "Dataframe for month " +:+ str month +:+ ":")] ;;
  print [Frame df_month] ;;
  to_parquet df (output_path month).

(** What the script prints when its argument [s] reads as the integer
    [month], in the order of the [print] calls. *)
Definition transcript (argv : list string) (s : string) (month : Z)
    : list (list obj) :=
  [ [Str "arguments:"; StrList argv];
    [Str (nl +:+ "first argument:"); Str s];
    [Str (nl +:+ "Running pipeline for month " +:+ str month)];
    [Str (nl +:+ "Dataframe:")];
    [Frame (df_head df)];
    [Str (nl +:+ "Dataframe for month " +:+ str month +:+ ":")];
    [Frame (df_month month)] ].

(** An empty machine: nothing printed, no file, every path writable. *)
Definition fresh_world : world :=
  {| stdout := []; fs := {| files := ∅; writable := λ _, true |} |}.

(** A machine on which no file can be created. *)
Definition locked_world : world :=
  {| stdout := []; fs := {| files := ∅; writable := λ _, false |} |}.

End Pipeline.

(** ** The homework scripts: ingestion and queries *)

Module Homework.

(** *** Column values and SQL expressions *)

(** The [double precision] columns ([trip_distance], [tip_amount],
    [total_amount]). Floating-point arithmetic is not modelled: the
    queries are read over any carrier with PostgreSQL's comparison, a
    total preorder (in which NaN ranks above every number), an addition
    and the conversion of integer literals. *)
Class Numeric (num : Type) : Type := {
  num_le : num → num → bool;
  num_add : num → num → num;
  num_of_Z : Z → num;
  num_le_total : ∀ x y, num_le x y = true ∨ num_le y x = true;
  num_le_trans : ∀ x y z,
    num_le x y = true → num_le y z = true → num_le x z = true
}.

#[export, refine] Instance Z_Numeric : Numeric Z := {|
  num_le := Z.leb;
  num_add := Z.add;
  num_of_Z := id
|}.
Proof.
  - intros x y. destruct (Z.leb_spec x y), (Z.leb_spec y x); auto; lia.
  - intros x y z ?%Z.leb_le ?%Z.leb_le. apply Z.leb_le. lia.
Defined.

(** A [timestamp without time zone] is a number of microseconds since
    2000-01-01 00:00:00, a [date] a number of days since 2000-01-01, as
    PostgreSQL stores them. *)
Definition USECS_PER_DAY : Z := 86400000000.
Definition POSTGRES_EPOCH_JDATE : Z := 2451545.

(** The Julian day of a calendar date (PostgreSQL's [date2j]). *)
Definition date2j (y m d : Z) : Z :=
  let '(m, y) := if 2 <? m then (m + 1, y + 4800) else (m + 13, y + 4799) in
  let century := y / 100 in
  y * 365 - 32167 + (y / 4 - century + century / 4) + 7834 * m / 256 + d.

(** A date literal such as ['2025-11-01']. *)
Definition date_lit (y m d : Z) : Z := date2j y m d - POSTGRES_EPOCH_JDATE.

(** The same literal where a timestamp is expected: midnight of that day. *)
Definition timestamp_lit (y m d : Z) : Z := date_lit y m d * USECS_PER_DAY.

(** SQL's three-valued logic: [None] is unknown. *)
Definition sql_and (a b : option bool) : option bool :=
  match a, b with
  | Some false, _ | _, Some false => Some false
  | Some true, Some true => Some true
  | _, _ => None
  end.

(** A comparison is unknown as soon as one side is NULL. *)
Definition sql_cmp {A} (f : A → A → bool) (x y : option A) : option bool :=
  match x, y with
  | Some a, Some b => Some (f a b)
  | _, _ => None
  end.

(** WHERE and ON keep a row only when the condition is true. *)
Definition holds (c : option bool) : bool :=
  match c with
  | Some true => true
  | _ => false
  end.

(** [DATE(ts)] *)
Definition DATE (ts : option Z) : option Z := (λ t, t / USECS_PER_DAY) <$> ts.

(** GROUP BY: one group per distinct key, NULL keys forming one group. *)
Definition group_by {R K} `{EqDecision K} (key : R → K) (rows : list R)
    : list (K * list R) :=
  (λ k, (k, filter (λ r, key r = k) rows)) <$> remove_dups (key <$> rows).

(** LIMIT n *)
Definition limit {R} (n : nat) (rows : list R) : list R := take n rows.

Section sql.
Context {num : Type} `{Numeric num}.

Definition num_lt (x y : num) : bool := negb (num_le y x).
Definition num_max (x y : num) : num := if num_le x y then y else x.

(** Aggregates skip NULLs; over no value at all they are NULL. *)
Definition aggregate (f : num → num → num) (l : list (option num)) : option num :=
  match omap id l with
  | [] => None
  | x :: xs => Some (foldl f x xs)
  end.

Definition MAX : list (option num) → option num := aggregate num_max.
Definition SUM : list (option num) → option num := aggregate num_add.

(** The sort order of a nullable numeric column: NULL ranks above every
    value, so ORDER BY ... DESC lists NULLs first. *)
Definition pg_le (a b : option num) : bool :=
  match a, b with
  | _, None => true
  | None, Some _ => false
  | Some x, Some y => num_le x y
  end.

(** [r1] may precede [r2] in ORDER BY col DESC. *)
Definition desc {R} (col : R → option num) (r1 r2 : R) : Prop :=
  pg_le (col r2) (col r1).

#[export] Instance desc_dec {R} (col : R → option num) r1 r2 :
  Decision (desc col r1 r2) := _.

(** ORDER BY col DESC. Rows with equal keys come out in an order SQL
    leaves open; here the merge sort decides. *)
Definition order_by_desc {R} (col : R → option num) (rows : list R) : list R :=
  merge_sort (desc col) rows.

(** Rows that read from top to bottom in descending order of their
    numeric column, in PostgreSQL's order: a row never comes after one
    that ranks strictly below it. *)
Definition descending {K} (rows : list (K * option num)) : Prop :=
  ∀ i j r1 r2, (i < j)%nat →
    rows !! i = Some r1 → rows !! j = Some r2 → pg_le r2.2 r1.2 = true.

(** *** The two tables *)

(** A row of [green_taxi_data] and a row of [zones]. The files are loaded
    as they are, so every column is nullable; only the columns that the
    queries name are kept. *)
Record TripRow : Type := {
  lpep_pickup_datetime : option Z;
  PULocationID : option Z;
  DOLocationID : option Z;
  trip_distance : option num;
  tip_amount : option num;
  total_amount : option num
}.

Record ZoneRow : Type := {
  LocationID : option Z;
  Zone : option string
}.

(** The SQL types that [to_sql] gives the two columns of a zone frame:
    BIGINT for an int64 column, FLOAT(53) for a float64 column, TEXT for
    an object column. *)
Inductive sqltype : Type := BIGINT | FLOAT53 | TEXT.

Record zone_columns : Type := {
  LocationID_type : sqltype;
  Zone_type : sqltype
}.

(** A relation: trip rows, with the column types of the parquet schema,
    or zone rows with the types of their two columns. A [Zone] cell is a
    string only in a TEXT column. *)
Inductive table : Type :=
  | Trips (rows : list TripRow)
  | ZoneTable (columns : zone_columns) (rows : list ZoneRow).

(** The types pandas infers for the columns of the zone file when it
    reads it: a column without any row is an object column; with rows,
    LocationID is int64 when no cell is missing and float64 otherwise,
    and Zone is an object column when some cell holds a name and float64
    when every cell is missing. *)
Definition zone_columns_of (rows : list ZoneRow) : zone_columns :=
  match rows with
  | [] => {| LocationID_type := TEXT; Zone_type := TEXT |}
  | _ :: _ =>
      {| LocationID_type :=
           if forallb (λ r, bool_decide (is_Some (LocationID r))) rows
           then BIGINT else FLOAT53;
         Zone_type :=
           if existsb (λ r, bool_decide (is_Some (Zone r))) rows
           then TEXT else FLOAT53 |}
  end.

(** The relation [to_sql] makes of a zone frame. *)
Definition Zones (rows : list ZoneRow) : table :=
  ZoneTable (zone_columns_of rows) rows.

(** *** The four statements of the query script *)

(** FROM a JOIN b ON c *)
Definition inner_join {A B} (on : A → B → option bool)
    (l : list A) (r : list B) : list (A * B) :=
  a ← l; (λ b, (a, b)) <$> filter (λ b, holds (on a b)) r.

(** q3 (lines 40-46):
<<
    SELECT COUNT( * ) as trip_count
    FROM green_taxi_data
    WHERE lpep_pickup_datetime >= '2025-11-01'
      AND lpep_pickup_datetime < '2025-12-01'
      AND trip_distance <= 1;
>> *)
Definition q3_where (t : TripRow) : option bool :=
  sql_and
    (sql_and
       (sql_cmp Z.leb (Some (timestamp_lit 2025 11 1)) (lpep_pickup_datetime t))
       (sql_cmp Z.ltb (lpep_pickup_datetime t) (Some (timestamp_lit 2025 12 1))))
    (sql_cmp num_le (trip_distance t) (Some (num_of_Z 1))).

Definition q3 (green_taxi_data : list TripRow) : list Z :=
  [Z.of_nat (length (filter (λ t, holds (q3_where t)) green_taxi_data))].

(** q4 (lines 50-58):
<<
    SELECT DATE(lpep_pickup_datetime) as pickup_date,
           MAX(trip_distance) as max_distance
    FROM green_taxi_data
    WHERE trip_distance < 100
    GROUP BY DATE(lpep_pickup_datetime)
    ORDER BY max_distance DESC
    LIMIT 1;
>> *)
Definition q4_where (t : TripRow) : option bool :=
  sql_cmp num_lt (trip_distance t) (Some (num_of_Z 100)).

(** The rows of q4 before ORDER BY and LIMIT: one per pickup day. *)
Definition q4_days (green_taxi_data : list TripRow)
    : list (option Z * option num) :=
  (λ grp : option Z * list TripRow, (grp.1, MAX (trip_distance <$> grp.2))) <$>
  group_by (λ t, DATE (lpep_pickup_datetime t))
    (filter (λ t, holds (q4_where t)) green_taxi_data).

Definition q4 (green_taxi_data : list TripRow) : list (option Z * option num) :=
  limit 1 (order_by_desc snd (q4_days green_taxi_data)).

(** q5 (lines 62-70), with g for green_taxi_data and z for zones:
<<
    SELECT z.Zone, SUM(g.total_amount) as total_sum
    FROM green_taxi_data g
    JOIN zones z ON g.PULocationID = z.LocationID
    WHERE DATE(g.lpep_pickup_datetime) = '2025-11-18'
    GROUP BY z.Zone
    ORDER BY total_sum DESC
    LIMIT 5;
>> *)
Definition q5_where (r : TripRow * ZoneRow) : option bool :=
  sql_cmp Z.eqb (DATE (lpep_pickup_datetime r.1)) (Some (date_lit 2025 11 18)).

Definition q5 (green_taxi_data : list TripRow) (zones : list ZoneRow)
    : list (option string * option num) :=
  limit 5
    (order_by_desc snd
       ((λ grp : option string * list (TripRow * ZoneRow),
           (grp.1, SUM ((λ r, total_amount r.1) <$> grp.2))) <$>
        group_by (λ r, Zone r.2)
          (filter (λ r, holds (q5_where r))
             (inner_join (λ g z, sql_cmp Z.eqb (PULocationID g) (LocationID z))
                green_taxi_data zones)))).

(** q6 (lines 75-86):
<<
    SELECT do_zone.Zone as dropoff_zone, MAX(g.tip_amount) as max_tip
    FROM green_taxi_data g
    JOIN zones pu_zone ON g.PULocationID = pu_zone.LocationID
    JOIN zones do_zone ON g.DOLocationID = do_zone.LocationID
    WHERE pu_zone.Zone = 'East Harlem North'
      AND DATE(g.lpep_pickup_datetime) >= '2025-11-01'
      AND DATE(g.lpep_pickup_datetime) < '2025-12-01'
    GROUP BY do_zone.Zone
    ORDER BY max_tip DESC
    LIMIT 5;
>> *)
Definition q6_where (r : TripRow * ZoneRow * ZoneRow) : option bool :=
  let '(g, pu_zone, do_zone) := r in
  sql_and
    (sql_and
       (sql_cmp String.eqb (Zone pu_zone) (Some "East Harlem North"))
       (sql_cmp Z.leb (Some (date_lit 2025 11 1)) (DATE (lpep_pickup_datetime g))))
    (sql_cmp Z.ltb (DATE (lpep_pickup_datetime g)) (Some (date_lit 2025 12 1))).

Definition q6 (green_taxi_data : list TripRow) (zones : list ZoneRow)
    : list (option string * option num) :=
  limit 5
    (order_by_desc snd
       ((λ grp : option string * list (TripRow * ZoneRow * ZoneRow),
           (grp.1, MAX ((λ r, tip_amount r.1.1) <$> grp.2))) <$>
        group_by (λ r, Zone r.2)
          (filter (λ r, holds (q6_where r))
             (inner_join
                (λ r do_zone, sql_cmp Z.eqb (DOLocationID r.1) (LocationID do_zone))
                (inner_join
                   (λ g pu_zone, sql_cmp Z.eqb (PULocationID g) (LocationID pu_zone))
                   green_taxi_data zones)
                zones)))).

(** The stages of q5 and q6 before ORDER BY and LIMIT: the joined rows
    that pass WHERE, and the grouped, aggregated rows. *)
Definition q5_joined (green_taxi_data : list TripRow) (zones : list ZoneRow)
    : list (TripRow * ZoneRow) :=
  filter (λ r, holds (q5_where r))
    (inner_join (λ g z, sql_cmp Z.eqb (PULocationID g) (LocationID z))
       green_taxi_data zones).

Definition q5_groups (green_taxi_data : list TripRow) (zones : list ZoneRow)
    : list (option string * option num) :=
  (λ grp : option string * list (TripRow * ZoneRow),
     (grp.1, SUM ((λ r, total_amount r.1) <$> grp.2))) <$>
  group_by (λ r, Zone r.2) (q5_joined green_taxi_data zones).

Definition q6_joined (green_taxi_data : list TripRow) (zones : list ZoneRow)
    : list (TripRow * ZoneRow * ZoneRow) :=
  filter (λ r, holds (q6_where r))
    (inner_join
       (λ r do_zone, sql_cmp Z.eqb (DOLocationID r.1) (LocationID do_zone))
       (inner_join
          (λ g pu_zone, sql_cmp Z.eqb (PULocationID g) (LocationID pu_zone))
          green_taxi_data zones)
       zones).

Definition q6_groups (green_taxi_data : list TripRow) (zones : list ZoneRow)
    : list (option string * option num) :=
  (λ grp : option string * list (TripRow * ZoneRow * ZoneRow),
     (grp.1, MAX ((λ r, tip_amount r.1.1) <$> grp.2))) <$>
  group_by (λ r, Zone r.2) (q6_joined green_taxi_data zones).

(** In words, what it takes for a trip, a pickup zone and a dropoff zone
    to be a row that q6 aggregates. *)
Definition q6_selects (green_taxi_data : list TripRow) (zones : list ZoneRow)
    (t : TripRow) (pu_zone do_zone : ZoneRow) : Prop :=
  t ∈ green_taxi_data ∧ pu_zone ∈ zones ∧ do_zone ∈ zones ∧
  (∃ n, PULocationID t = Some n ∧ LocationID pu_zone = Some n) ∧
  (∃ n, DOLocationID t = Some n ∧ LocationID do_zone = Some n) ∧
  Zone pu_zone = Some "East Harlem North" ∧
  (∃ d, DATE (lpep_pickup_datetime t) = Some d ∧
        date_lit 2025 11 1 ≤ d < date_lit 2025 12 1).

(** *** The world of the two scripts *)

Inductive statement : Type := Q3 | Q4 | Q5 | Q6.

Inductive result : Type :=
  | Counts (rows : list Z)
  | DayMax (rows : list (option Z * option num))
  | ZoneAgg (rows : list (option string * option num)).

(** What the server is asked to do: run a SELECT, or drop a table and
    create it again with new rows. *)
Inductive request : Type :=
  | Select (q : statement)
  | Replace (name : string).

(** The database at localhost:5433: whether it accepts connections, its
    relations by name, and the requests it has served so far. *)
Record database : Type := {
  up : bool;
  tables : gmap string table;
  requests : list request
}.

(** The input files of the ingestion script, by what they can be read
    as: a parquet file with the schema of the trip data, or a CSV file
    that pandas reads into zone rows (LocationID cells that are whole
    numbers or missing, Zone cells that are names, not numbers, or
    missing). *)
Inductive file : Type :=
  | Parquet (rows : list TripRow)
  | Csv (rows : list ZoneRow).

Inductive obj : Type :=
  | Str (s : string)
  | Loaded (n : nat)          (* trips read, with the time it took *)
  | ColumnNames
  | Dtypes
  | TripsHead (rows : list TripRow)
  | Inserted (n : nat)        (* trips written, with the time it took *)
  | LoadedZones (n : nat)
  | ZonesHead (rows : list ZoneRow)
  | InsertedZones (n : nat)
  | Query (q : statement)
  | Result (r : result).

Record world : Type := {
  stdout : list (list obj);
  files : gmap string file;
  db : database
}.

Definition print (os : list obj) : py world unit :=
  modify (λ w, {| stdout := stdout w ++ [os]; files := files w; db := db w |}).

(** [pd.read_parquet(path)] and [pd.read_csv(path)] *)
Definition read_parquet (path : string) : py world (list TripRow) :=
  λ w, match files w !! path with
       | Some (Parquet rows) => (inr rows, w)
       | Some (Csv _) => (inl ValueError, w)
       | None => (inl FileNotFoundError, w)
       end.

Definition read_csv (path : string) : py world (list ZoneRow) :=
  λ w, match files w !! path with
       | Some (Csv rows) => (inr rows, w)
       | Some (Parquet _) => (inl ValueError, w)
       | None => (inl FileNotFoundError, w)
       end.

(** [df.to_sql(name=..., con=engine, if_exists='replace', index=False)]:
    in one transaction, the table of that name is dropped if there is one
    and created again from the frame, with the column types of the frame
    (for the zone frame, those that [Zones] works out). *)
Definition to_sql (t : table) (name : string) : py world unit :=
  λ w, if up (db w) then
         (inr tt,
          {| stdout := stdout w; files := files w;
             db := {| up := up (db w);
                      tables := <[name := t]> (tables (db w));
                      requests := requests (db w) ++ [Replace name] |} |})
       else (inl OperationalError, w).

Definition trips_of (t : gmap string table) : option (list TripRow) :=
  match t !! "green_taxi_data" with
  | Some (Trips rows) => Some rows
  | _ => None
  end.

Definition is_numeric (ty : sqltype) : bool :=
  match ty with
  | BIGINT | FLOAT53 => true
  | TEXT => false
  end.

Definition is_text (ty : sqltype) : bool :=
  match ty with
  | TEXT => true
  | BIGINT | FLOAT53 => false
  end.

(** The zone relation as q5 can use it: q5 joins on
    [g.PULocationID = z.LocationID], an integer against LocationID, which
    the server accepts for a numeric column and refuses for a text
    column (no such operator). *)
Definition zones_keyed_of (t : gmap string table) : option (list ZoneRow) :=
  match t !! "zones" with
  | Some (ZoneTable c rows) =>
      if is_numeric (LocationID_type c) then Some rows else None
  | _ => None
  end.

(** The zone relation as q6 can use it: q6 also compares [Zone] with the
    literal ['East Harlem North'], which the server reads in the type of
    the column and refuses when the column is not text. *)
Definition zones_of (t : gmap string table) : option (list ZoneRow) :=
  match t !! "zones" with
  | Some (ZoneTable c rows) =>
      if is_numeric (LocationID_type c) && is_text (Zone_type c)
      then Some rows else None
  | _ => None
  end.

(** What a statement returns on the relations of the database, if the
    relations it names are there with columns of types it can use. *)
Definition execute (q : statement) (t : gmap string table) : option result :=
  match q with
  | Q3 => g ← trips_of t; Some (Counts (q3 g))
  | Q4 => g ← trips_of t; Some (DayMax (q4 g))
  | Q5 => g ← trips_of t; z ← zones_keyed_of t; Some (ZoneAgg (q5 g z))
  | Q6 => g ← trips_of t; z ← zones_of t; Some (ZoneAgg (q6 g z))
  end.

(** [pd.read_sql(query, engine)] *)
Definition read_sql (q : statement) : py world result :=
  λ w, if up (db w) then
         let w' := {| stdout := stdout w; files := files w;
                      db := {| up := up (db w); tables := tables (db w);
                               requests := requests (db w) ++ [Select q] |} |} in
         match execute q (tables (db w)) with
         | Some r => (inr r, w')
         | None => (inl DatabaseError, w')
         end
       else (inl OperationalError, w).

(** *** The query script *)

Definition run_query (question_num : Z) (description : string)
    (query : statement) : py world result :=
  print [Str (nl +:+ str_mul "=" 80)] ;;
  print [Str ("Question " +:+ str question_num +:+ ": " +:+ description)] ;;
  print [Str (str_mul "=" 80)] ;;
  print [Str (nl +:+ "SQL Query:")] ;;
  print [Str (str_mul "-" 80)] ;;
  print [Query query] ;;
  print [Str (str_mul "-" 80)] ;;
  result ← read_sql query;
  print [Str (nl +:+ "Result:")] ;;
  print [Result result] ;;
  print [Str nl] ;;
  mret result.

(** The records one call of [run_query] prints before and after the
    statement is executed. *)
Definition query_header (question_num : Z) (description : string)
    (query : statement) : list (list obj) :=
  [ [Str (nl +:+ str_mul "=" 80)];
    [Str ("Question " +:+ str question_num +:+ ": " +:+ description)];
    [Str (str_mul "=" 80)];
    [Str (nl +:+ "SQL Query:")];
    [Str (str_mul "-" 80)];
    [Query query];
    [Str (str_mul "-" 80)] ].

Definition query_footer (r : result) : list (list obj) :=
  [ [Str (nl +:+ "Result:")]; [Result r]; [Str nl] ].

Definition query_block (question_num : Z) (description : string)
    (query : statement) (r : result) : list (list obj) :=
  query_header question_num description query ++ query_footer r.

(** [main] of homework_queries.py. [create_engine] opens no connection. *)
Definition queries_main : py world unit :=
  run_query 3 "Counting short trips (distance <= 1 mile)" Q3 ;;
  run_query 4 "Day with longest trip distance" Q4 ;;
  run_query 5 "Pickup zone with largest total_amount on Nov 18" Q5 ;;
  run_query 6 "Dropoff zone with largest tip from East Harlem North" Q6 ;;
  mret tt.

(** Everything a complete run of the query script prints, over the trips
    [g] and the zones [z]. *)
Definition queries_transcript (g : list TripRow) (z : list ZoneRow)
    : list (list obj) :=
  query_block 3 "Counting short trips (distance <= 1 mile)" Q3 (Counts (q3 g)) ++
  query_block 4 "Day with longest trip distance" Q4 (DayMax (q4 g)) ++
  query_block 5 "Pickup zone with largest total_amount on Nov 18" Q5
    (ZoneAgg (q5 g z)) ++
  query_block 6 "Dropoff zone with largest tip from East Harlem North" Q6
    (ZoneAgg (q6 g z)).

(** The statements a run of a script added to the server's log. *)
Definition requests_during {A} (c : py world A) (w : world) : list request :=
  drop (length (requests (db w))) (requests (db (c w).2)).

(** *** The ingestion script *)

Definition banner (title : string) : py world unit :=
  print [Str (nl +:+ str_mul "=" 60)] ;;
  print [Str title] ;;
  print [Str (str_mul "=" 60)].

(** [main] of ingest_homework_data.py. The clock readings around the
    reads and writes only feed the printed messages and are left out. *)
Definition ingest_main : py world unit :=
  print [Str (str_mul "=" 60)] ;;
  print [Str "Loading Green Taxi data from parquet file..."] ;;
  print [Str (str_mul "=" 60)] ;;
  df_green ← read_parquet "green_tripdata_2025-11.parquet";
  print [Loaded (length df_green)] ;;
  print [Str (nl +:+ "Columns: "); ColumnNames] ;;
  print [Str (nl +:+ "Data types:" +:+ nl); Dtypes] ;;
  print [Str (nl +:+ "First few rows:" +:+ nl); TripsHead (take 5 df_green)] ;;
  banner "Inserting into green_taxi_data table..." ;;
  to_sql (Trips df_green) "green_taxi_data" ;;
  print [Inserted (length df_green)] ;;
  banner "Loading taxi zone lookup from CSV..." ;;
  df_zones ← read_csv "taxi_zone_lookup.csv";
  print [LoadedZones (length df_zones)] ;;
  print [Str (nl +:+ "Zone data:" +:+ nl); ZonesHead (take 5 df_zones)] ;;
  banner "Inserting into zones table..." ;;
  to_sql (Zones df_zones) "zones" ;;
  print [InsertedZones (length df_zones)] ;;
  banner "✓ Data ingestion complete!" ;;
  print [Str (nl +:+ "You can now connect to pgAdmin at http://localhost:8080")] ;;
  print [Str "  Email: pgadmin@pgadmin.com"] ;;
  print [Str "  Password: pgadmin"] ;;
  print [Str (nl +:+ "Server connection in pgAdmin:")] ;;
  print [Str "  Host: db (or postgres)"] ;;
  print [Str "  Port: 5432"] ;;
  print [Str "  Username: postgres"] ;;
  print [Str "  Password: postgres"] ;;
  print [Str "  Database: ny_taxi"].

End sql.

Arguments TripRow : clear implicits.
Arguments table : clear implicits.
Arguments Zones {num} rows.
Arguments result : clear implicits.
Arguments file : clear implicits.
Arguments obj : clear implicits.
Arguments database : clear implicits.
Arguments world : clear implicits.

(** *** A small data set, with integers for the numeric columns *)

Definition demo_trip (pickup pu do_ distance tip total : Z) : TripRow Z :=
  {| lpep_pickup_datetime := Some pickup;
     PULocationID := Some pu; DOLocationID := Some do_;
     trip_distance := Some distance; tip_amount := Some tip;
     total_amount := Some total |}.

Definition demo_trips : list (TripRow Z) :=
  [ demo_trip (timestamp_lit 2025 11 18 + 5) 74 75 1 3 20;
    demo_trip (timestamp_lit 2025 11 18 + 9) 74 42 7 5 30;
    demo_trip (timestamp_lit 2025 11 19) 75 74 120 9 10;
    demo_trip (timestamp_lit 2025 11 20) 42 74 50 1 10 ].

Definition demo_zones : list ZoneRow :=
  [ {| LocationID := Some 74; Zone := Some "East Harlem North" |};
    {| LocationID := Some 75; Zone := Some "East Harlem South" |};
    {| LocationID := Some 42; Zone := None |} ].

(** A machine after a successful ingestion of the demo files. *)
Definition demo_world : world Z :=
  {| stdout := []; files := ∅;
     db := {| up := true;
              tables := <["zones" := Zones demo_zones]>
                          (<["green_taxi_data" := Trips demo_trips]> ∅);
              requests := [] |} |}.

(** A machine before the first ingestion: both source files in the
    working directory, the server up and empty. *)
Definition demo_source_files : gmap string (file Z) :=
  <["taxi_zone_lookup.csv" := Csv demo_zones]>
    (<["green_tripdata_2025-11.parquet" := Parquet demo_trips]> ∅).

Definition demo_fresh_world : world Z :=
  {| stdout := []; files := demo_source_files;
     db := {| up := true; tables := ∅; requests := [] |} |}.

(** The same machine after an earlier ingestion of other data, and with
    the zone file gone. *)
Definition demo_old_trips : list (TripRow Z) :=
  [ demo_trip (timestamp_lit 2025 10 3) 42 42 2 0 9 ].

Definition demo_old_zones : list ZoneRow :=
  [ {| LocationID := Some 42; Zone := Some "Central Harlem North" |} ].

Definition demo_no_zone_file_world : world Z :=
  {| stdout := [];
     files := <["green_tripdata_2025-11.parquet" := Parquet demo_trips]> ∅;
     db := {| up := true;
              tables := <["zones" := Zones demo_old_zones]>
                          (<["green_taxi_data" := Trips demo_old_trips]> ∅);
              requests := [] |} |}.

(** A machine where only the trip relation has been loaded. *)
Definition demo_no_zones_world : world Z :=
  {| stdout := []; files := ∅;
     db := {| up := true;
              tables := <["green_taxi_data" := Trips demo_trips]> ∅;
              requests := [] |} |}.

(** A machine with both source files and an earlier ingestion, the server
    not accepting connections. *)
Definition demo_down_world : world Z :=
  {| stdout := []; files := demo_source_files;
     db := {| up := false;
              tables := <["zones" := Zones demo_old_zones]>
                          (<["green_taxi_data" := Trips demo_old_trips]> ∅);
              requests := [] |} |}.

(** Fresh machines whose zone file has a header and no row, or rows
    without any zone name. *)
Definition demo_header_only_world : world Z :=
  {| stdout := [];
     files := <["taxi_zone_lookup.csv" := Csv []]> demo_source_files;
     db := {| up := true; tables := ∅; requests := [] |} |}.

Definition demo_unnamed_zones_world : world Z :=
  {| stdout := [];
     files := <["taxi_zone_lookup.csv" :=
                  Csv [ {| LocationID := Some 74; Zone := None |};
                        {| LocationID := Some 75; Zone := None |} ]]>
                demo_source_files;
     db := {| up := true; tables := ∅; requests := [] |} |}.

(** Trips of which none is both in November 2025 and at most one mile. *)
Definition demo_long_trips : list (TripRow Z) :=
  [ demo_trip (timestamp_lit 2025 11 18 + 9) 74 42 7 5 30;
    demo_trip (timestamp_lit 2025 10 31) 74 42 1 5 30;
    {| lpep_pickup_datetime := Some (timestamp_lit 2025 11 2);
       PULocationID := Some 74; DOLocationID := None;
       trip_distance := None; tip_amount := None; total_amount := None |} ].

End Homework.

(** * Properties of the pipeline runner *)

Section pipeline_proofs.
Import Pipeline.

(** A run on an integer argument, in one equation: everything is printed,
    and the write goes through exactly when the environment allows it. *)
Lemma pipeline_integer_run argv s month w :
  argv !! 1%nat = Some s →
  py_int s = Some month →
  pipeline argv w =
    if writable (fs w) (output_path month) then
      (inr tt,
       {| stdout := stdout w ++ transcript argv s month;
          fs := {| files := <[output_path month := df]> (files (fs w));
                   writable := writable (fs w) |} |})
    else
      (inl OSError,
       {| stdout := stdout w ++ transcript argv s month; fs := fs w |}).
Proof.
  intros Harg Hint.
  unfold pipeline, argv_getitem, int, to_parquet, print, modify.
  unfold mbind, py_bind. rewrite Harg. unfold mret, py_ret. rewrite Hint.
  change (df_getitem df "month") with
    (mret (M := py world) [1; 2; 3; 4; 5; 6; 7; 8; 9; 10; 11; 12]).
  unfold mret, py_ret. cbn [stdout fs].
  repeat rewrite <- (app_assoc (stdout w)). cbn [app].
  fold (df_month month). fold (transcript argv s month).
  destruct (writable (fs w) (output_path month)); reflexivity.
Qed.

Lemma pipeline_integer_stdout argv s month w :
  argv !! 1%nat = Some s →
  py_int s = Some month →
  stdout (pipeline argv w).2 = stdout w ++ transcript argv s month.
Proof.
  intros Harg Hint. rewrite (pipeline_integer_run argv s month w Harg Hint).
  by destruct (writable (fs w) (output_path month)).
Qed.

(** The month column never equals an integer outside 1..12. *)
Lemma df_month_out_of_range month :
  month < 1 ∨ 12 < month →
  df_month month =
    {| index := []; columns := [("month", []); ("num_passengers", [])] |}.
Proof.
  intros Hm. unfold df_month, series_eq. cbn [fmap list_fmap].
  repeat match goal with
  | |- context [?k =? month] =>
      replace (k =? month) with false by (symmetry; apply Z.eqb_neq; lia)
  end.
  reflexivity.
Qed.

Lemma df_month_in_range month :
  1 ≤ month ≤ 12 →
  df_month month =
    {| index := [Z.to_nat (month - 1)];
       columns := [("month", [month]); ("num_passengers", [10 * month])] |}.
Proof.
  intros Hm.
  assert (month = 1 ∨ month = 2 ∨ month = 3 ∨ month = 4 ∨ month = 5 ∨
          month = 6 ∨ month = 7 ∨ month = 8 ∨ month = 9 ∨ month = 10 ∨
          month = 11 ∨ month = 12) as Hcases by lia.
  repeat destruct Hcases as [-> | Hcases]; try subst month; reflexivity.
Qed.

Lemma string_app_cons a (s t : string) : String a s +:+ t = String a (s +:+ t).
Proof. reflexivity. Qed.

Lemma string_length_app (s t : string) :
  String.length (s +:+ t) = (String.length s + String.length t)%nat.
Proof.
  induction s as [|a s IH]; [done|].
  rewrite string_app_cons. cbn [String.length]. by rewrite IH.
Qed.

Lemma string_app_inj_r (t s1 s2 : string) : s1 +:+ t = s2 +:+ t → s1 = s2.
Proof.
  revert s2. induction s1 as [|a s1 IH]; intros [|b s2] Heq.
  - done.
  - apply (f_equal String.length) in Heq.
    rewrite !string_length_app in Heq. cbn in Heq. lia.
  - apply (f_equal String.length) in Heq.
    rewrite !string_length_app in Heq. cbn in Heq. lia.
  - rewrite !string_app_cons in Heq. injection Heq as -> Heq.
    f_equal. by apply IH.
Qed.

(** Two months never share an output file. *)
Lemma output_path_inj m1 m2 : output_path m1 = output_path m2 → m1 = m2.
Proof.
  unfold output_path, str. intros Heq.
  apply (inj (String.append _)) in Heq.
  apply string_app_inj_r in Heq. by apply (inj pretty) in Heq.
Qed.

(** C2. Whatever integer [month] the argument reads as, the only file a
    run touches is the one whose name embeds [month] (distinct months give
    distinct names), and when the environment lets the script write it,
    the run succeeds and that file holds the whole table [df]: all twelve
    rows, months 1 to 12, none filtered out. *)
Theorem pipeline_writes_full_table argv s month w :
  argv !! 1%nat = Some s →
  py_int s = Some month →
  let w' := (pipeline argv w).2 in
  (∀ path, files (fs w') !! path ≠ files (fs w) !! path →
     path = output_path month ∧ files (fs w') !! path = Some df) ∧
  (writable (fs w) (output_path month) = true →
     (pipeline argv w).1 = inr tt ∧
     files (fs w') !! output_path month = Some df) ∧
  (∀ month', output_path month' = output_path month → month' = month) ∧
  nrows df = 12%nat ∧
  rows df =
    (λ m, (Z.to_nat (m - 1), [m; 10 * m])) <$> [1; 2; 3; 4; 5; 6; 7; 8; 9; 10; 11; 12].
Proof.
  intros Harg Hint w'. subst w'.
  rewrite (pipeline_integer_run argv s month w Harg Hint).
  destruct (writable (fs w) (output_path month)) eqn:Hw; cbn [fst snd fs files].
  - split_and!; [| |intros m Hm; by apply output_path_inj|reflexivity|reflexivity].
    + intros path Hpath.
      destruct (decide (path = output_path month)) as [->|Hne].
      * by rewrite lookup_insert_eq.
      * by rewrite lookup_insert_ne in Hpath.
    + intros _. by rewrite lookup_insert_eq.
  - split_and!; [done|done|intros m Hm; by apply output_path_inj|reflexivity|reflexivity].
Qed.

Lemma pipeline_writes_full_table_witness :
  files (fs (pipeline ["pipeline.py"; "12"] fresh_world).2) !! output_path 12
    = Some df.
Proof.
  pose proof (pipeline_writes_full_table ["pipeline.py"; "12"] "12" 12
                fresh_world eq_refl eq_refl) as (_ & Hfile & _).
  exact (proj2 (Hfile eq_refl)).
Defined.

(** C3. For an argument that reads as a month between 1 and 12, the
    script prints, as its last record, the filtered frame, and that frame
    has exactly one row: the row of the table whose month is [month]
    (label [month - 1], cells [month] and [10 * month]). This holds whether
    or not the later write succeeds. *)
Theorem pipeline_prints_one_row argv s month w :
  argv !! 1%nat = Some s →
  py_int s = Some month →
  1 ≤ month ≤ 12 →
  ∃ earlier subset,
    stdout (pipeline argv w).2 = stdout w ++ earlier ++ [[Frame subset]] ∧
    subset = df_mask df (series_eq [1; 2; 3; 4; 5; 6; 7; 8; 9; 10; 11; 12] month) ∧
    nrows subset = 1%nat ∧
    rows subset = [(Z.to_nat (month - 1), [month; 10 * month])] ∧
    (∀ r, r ∈ rows df → r.2 !! 0%nat = Some month → r ∈ rows subset).
Proof.
  intros Harg Hint Hm.
  exists (take 6 (transcript argv s month)), (df_month month).
  rewrite (pipeline_integer_stdout argv s month w Harg Hint).
  split; [reflexivity|]. split; [reflexivity|].
  rewrite (df_month_in_range month Hm).
  split; [reflexivity|]. split; [reflexivity|].
  intros r Hr Hmonth. cbn in Hr.
  repeat (apply elem_of_cons in Hr as [-> | Hr];
          [cbn in Hmonth; injection Hmonth as <-; by left|]).
  by apply elem_of_nil in Hr.
Qed.

Lemma pipeline_prints_one_row_witness :
  ∃ earlier subset,
    stdout (pipeline ["pipeline.py"; "7"] fresh_world).2
      = stdout fresh_world ++ earlier ++ [[Frame subset]] ∧
    subset = df_mask df (series_eq [1; 2; 3; 4; 5; 6; 7; 8; 9; 10; 11; 12] 7) ∧
    nrows subset = 1%nat ∧
    rows subset = [(Z.to_nat (7 - 1), [7; 10 * 7])] ∧
    (∀ r, r ∈ rows df → r.2 !! 0%nat = Some 7 → r ∈ rows subset).
Proof.
  apply (pipeline_prints_one_row ["pipeline.py"; "7"] "7" 7 fresh_world);
    [reflexivity | reflexivity | lia].
Defined.

(** C4. When [sys.argv] has no element 1 the run stops with an
    IndexError, and when element 1 is a string that [int] refuses it stops
    with a ValueError. Either way the exception is uncaught and comes
    before [to_parquet]: the file system is exactly what it was. *)
Theorem pipeline_bad_argument argv w :
  argv !! 1%nat = None ∨ (∃ s, argv !! 1%nat = Some s ∧ py_int s = None) →
  (pipeline argv w).1 =
    inl (if argv !! 1%nat is Some _ then ValueError else IndexError) ∧
  fs (pipeline argv w).2 = fs w.
Proof.
  intros [Harg | (s & Harg & Hint)];
    unfold pipeline, argv_getitem, int, print, modify, mbind, py_bind, raise;
    rewrite Harg; cbn; [done|].
  rewrite Hint. done.
Qed.

Lemma pipeline_bad_argument_witness :
  ((pipeline ["pipeline.py"] fresh_world).1 = inl IndexError ∧
   fs (pipeline ["pipeline.py"] fresh_world).2 = fs fresh_world) ∧
  ((pipeline ["pipeline.py"; "twelve"] fresh_world).1 = inl ValueError ∧
   fs (pipeline ["pipeline.py"; "twelve"] fresh_world).2 = fs fresh_world).
Proof.
  split.
  - apply (pipeline_bad_argument ["pipeline.py"] fresh_world).
    left. reflexivity.
  - apply (pipeline_bad_argument ["pipeline.py"; "twelve"] fresh_world).
    right. exists "twelve". split; reflexivity.
Defined.

(** C10. For an argument that reads as an integer below 1 or above 12,
    on a machine that lets the script write its output file, the run ends
    without an exception; the frame it printed last, the filtered subset,
    has no row; and the file named after that month holds the whole
    twelve-row table. *)
Theorem pipeline_month_out_of_range argv s month w :
  argv !! 1%nat = Some s →
  py_int s = Some month →
  month < 1 ∨ 12 < month →
  writable (fs w) (output_path month) = true →
  (pipeline argv w).1 = inr tt ∧
  (∃ earlier subset,
     stdout (pipeline argv w).2 = stdout w ++ earlier ++ [[Frame subset]] ∧
     subset = df_mask df (series_eq [1; 2; 3; 4; 5; 6; 7; 8; 9; 10; 11; 12] month) ∧
     nrows subset = 0%nat ∧ rows subset = []) ∧
  files (fs (pipeline argv w).2) !! output_path month = Some df ∧
  nrows df = 12%nat.
Proof.
  intros Harg Hint Hm Hw.
  rewrite (pipeline_integer_run argv s month w Harg Hint), Hw.
  cbn [fst snd stdout fs files].
  split_and!; [done| |by rewrite lookup_insert_eq|done].
  exists (take 6 (transcript argv s month)), (df_month month).
  split; [reflexivity|]. split; [reflexivity|].
  by rewrite (df_month_out_of_range month Hm).
Qed.

Lemma pipeline_month_out_of_range_witness :
  (pipeline ["pipeline.py"; "13"] fresh_world).1 = inr tt ∧
  (∃ earlier subset,
     stdout (pipeline ["pipeline.py"; "13"] fresh_world).2
       = stdout fresh_world ++ earlier ++ [[Frame subset]] ∧
     subset = df_mask df (series_eq [1; 2; 3; 4; 5; 6; 7; 8; 9; 10; 11; 12] 13) ∧
     nrows subset = 0%nat ∧ rows subset = []) ∧
  files (fs (pipeline ["pipeline.py"; "13"] fresh_world).2) !! output_path 13
    = Some df ∧
  nrows df = 12%nat.
Proof.
  apply (pipeline_month_out_of_range ["pipeline.py"; "13"] "13" 13 fresh_world);
    [reflexivity | reflexivity | lia | reflexivity].
Defined.

(** [int] reads the decimal digits and the white space of every script:
    the argument twelve in Arabic-Indic digits, or in full-width digits
    after a no-break space, runs the pipeline for month 12; text that is
    no numeral, a superscript two, or bytes that are not UTF-8 are
    refused. *)
Example py_int_scripts :
  py_int "١٢" = Some 12 ∧ py_int " １２" = Some 12 ∧ py_int "-٠_٧ " = Some (-7) ∧
  py_int "²" = None ∧ py_int "twelve" = None ∧ py_int "١٢x" = None ∧
  py_int (String (ascii_of_nat 255) "12") = None ∧
  (pipeline ["pipeline.py"; "١٢"] fresh_world).1 = inr tt ∧
  files (fs (pipeline ["pipeline.py"; "١٢"] fresh_world).2) !! output_path 12
    = Some df.
Proof. by vm_compute. Qed.

(** The same for month 0 and for a negative month, by evaluation. *)
Example pipeline_month_zero :
  (pipeline ["pipeline.py"; "0"] fresh_world).1 = inr tt ∧
  output_path 0 = "01-docker-terraform/docker-sql/pipeline/output_0.parquet" ∧
  output_path (-5) = "01-docker-terraform/docker-sql/pipeline/output_-5.parquet".
Proof. by vm_compute. Qed.

(** ** Further properties of the pipeline runner *)

(** The end of a run and the file system it leaves, whatever the
    argument. *)
Lemma pipeline_cases argv w :
  ((pipeline argv w).1, fs (pipeline argv w).2) =
    match argv !! 1%nat with
    | Some s =>
        match py_int s with
        | Some month =>
            if writable (fs w) (output_path month) then
              (inr tt,
               {| files := <[output_path month := df]> (files (fs w));
                  writable := writable (fs w) |})
            else (inl OSError, fs w)
        | None => (inl ValueError, fs w)
        end
    | None => (inl IndexError, fs w)
    end.
Proof.
  destruct (argv !! 1%nat) as [s|] eqn:Harg.
  - destruct (py_int s) as [month|] eqn:Hint.
    + rewrite (pipeline_integer_run argv s month w Harg Hint).
      by destruct (writable (fs w) (output_path month)).
    + unfold pipeline, argv_getitem, int, print, modify, mbind, py_bind, raise.
      rewrite Harg. cbn. by rewrite Hint.
  - unfold pipeline, argv_getitem, int, print, modify, mbind, py_bind, raise.
    by rewrite Harg.
Qed.

Lemma pipeline_fs argv w :
  fs (pipeline argv w).2 =
    match argv !! 1%nat with
    | Some s =>
        match py_int s with
        | Some month =>
            if writable (fs w) (output_path month) then
              {| files := <[output_path month := df]> (files (fs w));
                 writable := writable (fs w) |}
            else fs w
        | None => fs w
        end
    | None => fs w
    end.
Proof.
  pose proof (f_equal snd (pipeline_cases argv w)) as Hc. cbn [snd] in Hc.
  rewrite Hc. repeat case_match; done.
Qed.

(** X1. How a run ends is decided by three tests in this order: is there
    an element 1 in [sys.argv] (else IndexError), does [int] read it
    (else ValueError), can the output file be written (else OSError).
    No other exception is raised; in particular the column lookup
    [df['month']] never fails. *)
Theorem pipeline_outcome argv w :
  (pipeline argv w).1 =
    match argv !! 1%nat with
    | None => inl IndexError
    | Some s =>
        match py_int s with
        | None => inl ValueError
        | Some month =>
            if writable (fs w) (output_path month) then inr tt
            else inl OSError
        end
    end.
Proof.
  pose proof (f_equal fst (pipeline_cases argv w)) as Hc. cbn [fst] in Hc.
  rewrite Hc. repeat case_match; done.
Qed.

(** X2. When the output file cannot be written, the run stops with an
    OSError only after it has printed everything, the filtered subset
    included, and the file system is what it was. *)
Theorem pipeline_write_refused argv s month w :
  argv !! 1%nat = Some s →
  py_int s = Some month →
  writable (fs w) (output_path month) = false →
  (pipeline argv w).1 = inl OSError ∧
  stdout (pipeline argv w).2 = stdout w ++ transcript argv s month ∧
  fs (pipeline argv w).2 = fs w.
Proof.
  intros Harg Hint Hw.
  by rewrite (pipeline_integer_run argv s month w Harg Hint), Hw.
Qed.

Lemma pipeline_write_refused_witness :
  (pipeline ["pipeline.py"; "3"] locked_world).1 = inl OSError ∧
  stdout (pipeline ["pipeline.py"; "3"] locked_world).2
    = stdout locked_world ++ transcript ["pipeline.py"; "3"] "3" 3 ∧
  fs (pipeline ["pipeline.py"; "3"] locked_world).2 = fs locked_world.
Proof.
  apply (pipeline_write_refused ["pipeline.py"; "3"] "3" 3 locked_world);
    reflexivity.
Defined.

(** X3. Running the script again with the same arguments changes nothing
    on disk: the second run ends as the first did and leaves the file
    system of the first run (the output file is overwritten with the same
    table). *)
Theorem pipeline_rerun argv w :
  let w1 := (pipeline argv w).2 in
  (pipeline argv w1).1 = (pipeline argv w).1 ∧
  fs (pipeline argv w1).2 = fs w1.
Proof.
  intros w1. subst w1.
  pose proof (pipeline_cases argv (pipeline argv w).2) as Hsecond.
  pose proof (pipeline_cases argv w) as Hfirst.
  rewrite (pipeline_fs argv w) in Hsecond |- *.
  assert (∀ (a b : exn + unit) (c d : filesystem),
            (a, c) = (b, d) → a = b ∧ c = d) as Hpair
    by (by intros a b c d [= -> ->]).
  destruct (argv !! 1%nat) as [s|];
    [|apply Hpair in Hsecond as [-> ->]; by apply Hpair in Hfirst as [-> _]].
  destruct (py_int s) as [month|];
    [|apply Hpair in Hsecond as [-> ->]; by apply Hpair in Hfirst as [-> _]].
  destruct (writable (fs w) (output_path month)) eqn:Hw;
    cbn [writable files] in Hsecond; rewrite Hw in Hsecond;
    [|apply Hpair in Hsecond as [-> ->]; by apply Hpair in Hfirst as [-> _]].
  rewrite insert_insert_eq in Hsecond.
  apply Hpair in Hsecond as [-> ->]. by apply Hpair in Hfirst as [-> _].
Qed.

(** X4. Runs for two different months leave two files, one per month,
    and the two files hold the same table: the month decides the name of
    the file and nothing of its content. *)
Theorem pipeline_two_months argv1 argv2 s1 s2 m1 m2 w :
  argv1 !! 1%nat = Some s1 → py_int s1 = Some m1 →
  argv2 !! 1%nat = Some s2 → py_int s2 = Some m2 →
  m1 ≠ m2 →
  writable (fs w) (output_path m1) = true →
  writable (fs w) (output_path m2) = true →
  let w2 := (pipeline argv2 (pipeline argv1 w).2).2 in
  output_path m1 ≠ output_path m2 ∧
  files (fs w2) !! output_path m1 = Some df ∧
  files (fs w2) !! output_path m2 = Some df.
Proof.
  intros Harg1 Hint1 Harg2 Hint2 Hne Hw1 Hw2 w2. subst w2.
  assert (output_path m1 ≠ output_path m2) as Hpaths
    by (intros Heq; by apply Hne, output_path_inj).
  rewrite (pipeline_fs argv2), Harg2, Hint2.
  rewrite (pipeline_fs argv1 w), Harg1, Hint1, Hw1. cbn [writable files].
  rewrite Hw2. cbn [files].
  split_and!; [done| |by rewrite lookup_insert_eq].
  rewrite lookup_insert_ne by done. by rewrite lookup_insert_eq.
Qed.

Lemma pipeline_two_months_witness :
  let w2 := (pipeline ["pipeline.py"; "2"]
               (pipeline ["pipeline.py"; "11"] fresh_world).2).2 in
  output_path 11 ≠ output_path 2 ∧
  files (fs w2) !! output_path 11 = Some df ∧
  files (fs w2) !! output_path 2 = Some df.
Proof.
  apply (pipeline_two_months ["pipeline.py"; "11"] ["pipeline.py"; "2"]
           "11" "2" 11 2 fresh_world);
    [reflexivity|reflexivity|reflexivity|reflexivity|lia|reflexivity|reflexivity].
Defined.

(** X5. What a run with a bad argument has printed when it stops: the
    line with the argument list and nothing else when element 1 is
    missing; that line and the line with the first argument when element
    1 is text (valid UTF-8) that [int] refuses, that is, text that is no
    numeral in any script. The table is never printed on such a run. *)
Theorem pipeline_bad_argument_output argv w :
  (argv !! 1%nat = None →
   stdout (pipeline argv w).2 = stdout w ++ [[Str "arguments:"; StrList argv]]) ∧
  (∀ s, argv !! 1%nat = Some s →
   is_Some (utf8_decode (bytes_of_string s)) → py_int s = None →
   stdout (pipeline argv w).2 =
     stdout w ++ [[Str "arguments:"; StrList argv];
                  [Str (nl +:+ "first argument:"); Str s]]).
Proof.
  split.
  - intros Harg.
    unfold pipeline, argv_getitem, int, print, modify, mbind, py_bind, raise.
    by rewrite Harg.
  - intros s Harg _ Hint.
    unfold pipeline, argv_getitem, int, print, modify, mbind, py_bind, raise.
    rewrite Harg. cbn. rewrite Hint. cbn. by rewrite <- app_assoc.
Qed.

Lemma pipeline_bad_argument_output_witness :
  stdout (pipeline ["pipeline.py"; "3.5"] fresh_world).2 =
    stdout fresh_world ++
      [[Str "arguments:"; StrList ["pipeline.py"; "3.5"]];
       [Str (nl +:+ "first argument:"); Str "3.5"]].
Proof.
  apply (proj2 (pipeline_bad_argument_output ["pipeline.py"; "3.5"] fresh_world)
           "3.5"); [reflexivity|by eexists|reflexivity].
Defined.

End pipeline_proofs.

(** * Properties of the SQL statements *)

Section sql_proofs.
Import Homework.
Context {num : Type} `{Numeric num}.

Lemma num_le_refl (x : num) : num_le x x = true.
Proof. by destruct (num_le_total x x). Qed.

Lemma pg_le_total (a b : option num) : pg_le a b = true ∨ pg_le b a = true.
Proof. destruct a, b; cbn; auto using num_le_total. Qed.

Lemma pg_le_trans (a b c : option num) :
  pg_le a b = true → pg_le b c = true → pg_le a c = true.
Proof. destruct a, b, c; cbn; try done. apply num_le_trans. Qed.

#[local] Instance desc_total {R} (col : R → option num) : Total (desc col).
Proof.
  intros r1 r2. unfold desc.
  destruct (pg_le_total (col r2) (col r1)) as [->| ->]; cbn; auto.
Qed.

#[local] Instance desc_trans {R} (col : R → option num) : Transitive (desc col).
Proof.
  intros r1 r2 r3. unfold desc. intros H12%Is_true_true H23%Is_true_true.
  apply Is_true_true. by apply pg_le_trans with (col r2).
Qed.

Lemma order_by_desc_sorted {R} (col : R → option num) rows :
  StronglySorted (desc col) (order_by_desc col rows).
Proof. apply StronglySorted_merge_sort; apply _. Qed.

Lemma order_by_desc_perm {R} (col : R → option num) rows :
  order_by_desc col rows ≡ₚ rows.
Proof. apply merge_sort_Permutation. Qed.

Lemma StronglySorted_take {A} (R : relation A) n l :
  StronglySorted R l → StronglySorted R (take n l).
Proof.
  intros Hl. revert n. induction Hl as [|x l Hl IH Hx]; intros [|n]; cbn;
    try constructor; auto using Forall_take.
Qed.

Lemma StronglySorted_lookup_lt {A} (R : relation A) l i j x y :
  StronglySorted R l → (i < j)%nat → l !! i = Some x → l !! j = Some y → R x y.
Proof.
  intros Hl. revert i j. induction Hl as [|a l Hl IH Ha]; intros i j Hij Hi Hj.
  - done.
  - destruct j as [|j]; [lia|]. cbn in Hj. destruct i as [|i]; cbn in Hi.
    + injection Hi as ->. rewrite Forall_forall in Ha.
      apply Ha. by eapply list_elem_of_lookup_2.
    + apply (IH i j); [lia|done|done].
Qed.

(** ORDER BY col DESC LIMIT n: at most [n] rows, in descending order. *)
Lemma limit_order_by_desc {K} n (rows : list (K * option num)) :
  (length (limit n (order_by_desc snd rows)) ≤ n)%nat ∧
  descending (limit n (order_by_desc snd rows)).
Proof.
  split.
  - unfold limit. rewrite length_take. lia.
  - intros i j r1 r2 Hij Hi Hj.
    pose proof (StronglySorted_take (desc snd) n _
                  (order_by_desc_sorted snd rows)) as Hs.
    apply Is_true_true.
    by apply (StronglySorted_lookup_lt (desc snd) _ i j r1 r2 Hs).
Qed.

(** The same bound for any order in which the server may return rows
    with equal keys: whatever sorted permutation is cut, the property
    holds. *)
Lemma limit_any_sorted_perm {K} n (rows sorted : list (K * option num)) :
  sorted ≡ₚ rows → StronglySorted (desc snd) sorted →
  (length (limit n sorted) ≤ n)%nat ∧ descending (limit n sorted).
Proof.
  intros _ Hs. split.
  - unfold limit. rewrite length_take. lia.
  - intros i j r1 r2 Hij Hi Hj. apply Is_true_true.
    by apply (StronglySorted_lookup_lt (desc snd) _ i j r1 r2
                (StronglySorted_take _ n _ Hs)).
Qed.

(** A zone relation that q6 can use is one that q5 can use. *)
Lemma zones_of_keyed (t : gmap string (table num)) z :
  zones_of t = Some z → zones_keyed_of t = Some z.
Proof.
  unfold zones_of, zones_keyed_of.
  destruct (t !! "zones") as [[rows|c rows]|]; [done| |done].
  by destruct (is_numeric (LocationID_type c)), (is_text (Zone_type c)).
Qed.

Lemma zones_keyed_of_None (t : gmap string (table num)) :
  zones_keyed_of t = None → zones_of t = None.
Proof.
  intros Hkeyed. destruct (zones_of t) as [z|] eqn:Hz; [|done].
  apply zones_of_keyed in Hz. congruence.
Qed.

(** C7. Whatever the relations hold, q5 and q6 each return at most five
    rows, and the rows of each result are in descending order of the
    aggregate column (the summed total_amount for q5, the largest
    tip_amount for q6), in PostgreSQL's order, where a NULL aggregate
    ranks above every number. The statements fail, returning nothing,
    only when one of the two relations is not there in a usable form. *)
Theorem q5_q6_top5_descending (t : gmap string (table num)) :
  match execute Q5 t with
  | Some (ZoneAgg rows) => (length rows ≤ 5)%nat ∧ descending rows
  | Some _ => False
  | None => trips_of t = None ∨ zones_of t = None
  end ∧
  match execute Q6 t with
  | Some (ZoneAgg rows) => (length rows ≤ 5)%nat ∧ descending rows
  | Some _ => False
  | None => trips_of t = None ∨ zones_of t = None
  end.
Proof.
  unfold execute.
  destruct (trips_of t) as [g|]; cbn; [|by auto].
  split.
  - destruct (zones_keyed_of t) as [z|] eqn:Hkeyed; cbn.
    + apply limit_order_by_desc.
    + right. by apply zones_keyed_of_None.
  - destruct (zones_of t) as [z|]; cbn; [|by auto].
    apply limit_order_by_desc.
Qed.

(** When the WHERE clause of q3 keeps a row. *)
Lemma q3_where_holds (t : TripRow num) :
  holds (q3_where t) = true ↔
  ∃ ts d, lpep_pickup_datetime t = Some ts ∧ trip_distance t = Some d ∧
          timestamp_lit 2025 11 1 ≤ ts < timestamp_lit 2025 12 1 ∧
          num_le d (num_of_Z 1) = true.
Proof.
  unfold q3_where, sql_cmp.
  destruct (lpep_pickup_datetime t) as [ts|], (trip_distance t) as [d|];
    [|split; [by destruct (_ <=? _), (_ <? _) | by intros (? & ? & _ & [=] & _)]
     |split; [by destruct (num_le _ _) | by intros (? & ? & [=] & _)]
     |split; [done | by intros (? & ? & [=] & _)]].
  destruct (timestamp_lit 2025 11 1 <=? ts) eqn:Hlo,
           (ts <? timestamp_lit 2025 12 1) eqn:Hhi,
           (num_le d (num_of_Z 1)) eqn:Hd; cbn [sql_and holds];
    try apply Z.leb_le in Hlo; try apply Z.leb_gt in Hlo;
    try apply Z.ltb_lt in Hhi; try apply Z.ltb_ge in Hhi;
    (split;
     [try done; intros _; exists ts, d; split_and!; done
     |intros (? & ? & [= <-] & [= <-] & ? & Hle); try done;
      try lia; by rewrite Hd in Hle]).
Qed.

Lemma filter_none {A} (P : A → Prop) `{∀ x, Decision (P x)} (l : list A) :
  (∀ x, x ∈ l → ¬ P x) → filter P l = [].
Proof.
  induction l as [|x l IH]; intros Hl; [done|].
  rewrite filter_cons_False by (apply Hl; left).
  apply IH. intros y Hy. apply Hl. by right.
Qed.

(** C8. On a database whose trip relation has no row with a pickup time
    in [2025-11-01, 2025-12-01) and a distance of at most 1, q3 returns
    one row, and its count is 0. *)
Theorem q3_counts_zero (t : gmap string (table num)) (g : list (TripRow num)) :
  trips_of t = Some g →
  (∀ r ts d, r ∈ g →
     lpep_pickup_datetime r = Some ts → trip_distance r = Some d →
     timestamp_lit 2025 11 1 ≤ ts < timestamp_lit 2025 12 1 →
     num_le d (num_of_Z 1) = false) →
  execute Q3 t = Some (Counts [0]) ∧ q3 g = [0] ∧ length (q3 g) = 1%nat.
Proof.
  intros Hg Hnone. unfold execute. rewrite Hg. cbn.
  assert (q3 g = [0]) as ->; [|done].
  unfold q3. rewrite filter_none; [done|].
  intros r Hr Hkeep%Is_true_true. apply q3_where_holds in Hkeep
    as (ts & d & Hts & Hd & Hrange & Hle).
  by rewrite (Hnone r ts d Hr Hts Hd Hrange) in Hle.
Qed.

(** With or without such rows, q3 returns exactly one row. *)
Lemma q3_one_row (g : list (TripRow num)) : length (q3 g) = 1%nat.
Proof. reflexivity. Qed.

(** [MAX] returns a value of the column that no other value exceeds. *)
Lemma num_max_ge_l (x y : num) : num_le x (num_max x y) = true.
Proof.
  unfold num_max. destruct (num_le x y) eqn:Hxy; [done|apply num_le_refl].
Qed.

Lemma num_max_ge_r (x y : num) : num_le y (num_max x y) = true.
Proof.
  unfold num_max. destruct (num_le x y) eqn:Hxy; [apply num_le_refl|].
  destruct (num_le_total x y) as [Hle|Hle]; [congruence|done].
Qed.

Lemma foldl_num_max_elem (x : num) xs : foldl num_max x xs ∈ x :: xs.
Proof.
  revert x. induction xs as [|y xs IH]; intros x; cbn; [by left|].
  specialize (IH (num_max x y)). apply elem_of_cons in IH as [->|IH].
  - unfold num_max. destruct (num_le x y); [right; left|left].
  - by do 2 right.
Qed.

Lemma foldl_num_max_ge (x : num) xs y :
  y ∈ x :: xs → num_le y (foldl num_max x xs) = true.
Proof.
  revert x y. induction xs as [|a xs IH]; intros x y Hy; cbn.
  - apply list_elem_of_singleton in Hy as ->. apply num_le_refl.
  - apply elem_of_cons in Hy as [->|Hy].
    + apply num_le_trans with (num_max x a); [apply num_max_ge_l|].
      apply IH. by left.
    + apply elem_of_cons in Hy as [->|Hy].
      * apply num_le_trans with (num_max x a); [apply num_max_ge_r|].
        apply IH. by left.
      * apply IH. by right.
Qed.

Lemma MAX_spec (l : list (option num)) x :
  Some x ∈ l →
  ∃ v, MAX l = Some v ∧ Some v ∈ l ∧ ∀ y, Some y ∈ l → num_le y v = true.
Proof.
  intros Hx. unfold MAX, aggregate.
  assert (∀ y, y ∈ omap id l ↔ Some y ∈ l) as Hmem.
  { intros y. rewrite list_elem_of_omap. split.
    - by intros ([z|] & Hz & [= ->]).
    - intros Hy. by exists (Some y). }
  destruct (omap id l) as [|a xs].
  { apply Hmem in Hx. by apply elem_of_nil in Hx. }
  exists (foldl num_max a xs). split_and!; [done| |].
  - apply Hmem, foldl_num_max_elem.
  - intros y Hy. by apply foldl_num_max_ge, Hmem.
Qed.

(** The groups of GROUP BY: one per key that occurs, holding the rows
    with that key. *)
Lemma elem_of_group_by {R K} `{EqDecision K} (key : R → K) rows k grp :
  (k, grp) ∈ group_by key rows ↔
  (∃ r, r ∈ rows ∧ key r = k) ∧ grp = filter (λ r, key r = k) rows.
Proof.
  unfold group_by. rewrite list_elem_of_fmap. split.
  - intros (k' & [= -> ->] & Hk). split; [|done].
    apply elem_of_remove_dups, list_elem_of_fmap in Hk as (r & -> & Hr).
    by exists r.
  - intros [(r & Hr & <-) ->]. exists (key r). split; [done|].
    apply elem_of_remove_dups, list_elem_of_fmap. by exists r.
Qed.

(** When the WHERE clause of q4 keeps a row: its distance is not NULL
    and is not 100 or more. *)
Lemma q4_where_holds (t : TripRow num) :
  holds (q4_where t) = true ↔
  ∃ x, trip_distance t = Some x ∧ num_le (num_of_Z 100) x = false.
Proof.
  unfold q4_where, sql_cmp, num_lt.
  destruct (trip_distance t) as [x|]; cbn.
  - destruct (num_le (num_of_Z 100) x) eqn:Hx; cbn.
    + split; [done|]. intros (? & [= <-] & ?). congruence.
    + split; [by exists x|done].
  - split; [done|]. by intros (? & [=] & _).
Qed.

(** The first row of ORDER BY col DESC ranks at least as high as any row. *)
Lemma order_by_desc_head {R} (col : R → option num) rows r rest r' :
  order_by_desc col rows = r :: rest → r' ∈ rows →
  pg_le (col r') (col r) = true.
Proof.
  intros Hsorted Hr'.
  pose proof (order_by_desc_sorted col rows) as Hs. rewrite Hsorted in Hs.
  apply StronglySorted_inv in Hs as [_ Hhead]. rewrite Forall_forall in Hhead.
  rewrite <- (order_by_desc_perm col rows), Hsorted in Hr'.
  apply elem_of_cons in Hr' as [->|Hr'].
  - destruct (pg_le_total (col r) (col r)); done.
  - apply Is_true_true. by apply (Hhead r').
Qed.

Lemma elem_of_q4_days (g : list (TripRow num)) day mx :
  (day, mx) ∈ q4_days g ↔
  (∃ t, t ∈ g ∧ holds (q4_where t) = true ∧ DATE (lpep_pickup_datetime t) = day) ∧
  mx = MAX (trip_distance <$>
            filter (λ t, DATE (lpep_pickup_datetime t) = day)
              (filter (λ t, holds (q4_where t)) g)).
Proof.
  unfold q4_days. rewrite list_elem_of_fmap. split.
  - intros ([k grp] & [= -> ->] & Hgrp).
    apply elem_of_group_by in Hgrp as [(t & Ht & Hk) ->].
    apply list_elem_of_filter in Ht as [Hkeep%Is_true_true Ht]. eauto 6.
  - intros [(t & Ht & Hkeep & Hk) ->].
    eexists (day, _). split; [reflexivity|].
    apply elem_of_group_by. split; [|done].
    exists t. split; [|done]. apply list_elem_of_filter.
    split; [by apply Is_true_true|done].
Qed.

(** Every qualifying trip has its day in [q4_days], with a maximum that
    is a number at least as large as the trip's distance. *)
Lemma q4_days_covers (g : list (TripRow num)) t x :
  t ∈ g → trip_distance t = Some x → num_le (num_of_Z 100) x = false →
  ∃ v, (DATE (lpep_pickup_datetime t), Some v) ∈ q4_days g ∧
       num_le x v = true.
Proof.
  intros Ht Hx Hlt.
  assert (holds (q4_where t) = true) as Hkeep by (apply q4_where_holds; eauto).
  set (day := DATE (lpep_pickup_datetime t)).
  set (distances := trip_distance <$>
         filter (λ t, DATE (lpep_pickup_datetime t) = day)
           (filter (λ t, holds (q4_where t)) g)).
  assert (Some x ∈ distances) as Hmem.
  { apply list_elem_of_fmap. exists t. split; [done|].
    apply list_elem_of_filter. split; [done|].
    apply list_elem_of_filter. split; [by apply Is_true_true|done]. }
  destruct (MAX_spec distances x Hmem) as (v & Hv & _ & Hub).
  exists v. split; [|by apply Hub].
  apply elem_of_q4_days. split; [by exists t|done].
Qed.

(** The maximum of a day of [q4_days] is the distance of a qualifying
    trip of that day. *)
Lemma q4_days_attained (g : list (TripRow num)) day mx :
  (day, mx) ∈ q4_days g →
  ∃ v t, mx = Some v ∧ t ∈ g ∧ trip_distance t = Some v ∧
         num_le (num_of_Z 100) v = false ∧
         DATE (lpep_pickup_datetime t) = day.
Proof.
  intros [(t0 & Ht0 & Hkeep0 & Hday0) ->]%elem_of_q4_days.
  pose proof Hkeep0 as (x0 & Hx0 & _)%q4_where_holds.
  destruct (MAX_spec
              (trip_distance <$>
               filter (λ t, DATE (lpep_pickup_datetime t) = day)
                 (filter (λ t, holds (q4_where t)) g)) x0) as (v & Hv & Hin & _).
  { apply list_elem_of_fmap. exists t0. split; [done|].
    apply list_elem_of_filter. split; [done|].
    apply list_elem_of_filter. split; [by apply Is_true_true|done]. }
  apply list_elem_of_fmap in Hin as (t & Htv & Ht).
  apply list_elem_of_filter in Ht as [Hday Ht].
  apply list_elem_of_filter in Ht as [Hkeep%Is_true_true Ht].
  apply q4_where_holds in Hkeep as (x & Hx & Hlt).
  assert (x = v) as -> by congruence.
  by exists v, t.
Qed.

(** C9. q4 returns at most one row. It returns none exactly when no trip
    has a distance that is a number below 100. Otherwise the row is a
    pickup day with the longest distance [v] among the trips of that day
    that are below 100: [v] is the distance of such a trip of that day,
    and no trip below 100, of that day or of any other, is longer. Trips
    of 100 or more (and trips without a distance) take no part. *)
Theorem q4_top_day (g : list (TripRow num)) :
  (length (q4 g) ≤ 1)%nat ∧
  (q4 g = [] ↔
   ∀ t x, t ∈ g → trip_distance t = Some x → num_le (num_of_Z 100) x = true) ∧
  (∀ day mx, q4 g = [(day, mx)] →
     ∃ v, mx = Some v ∧
       (∃ t, t ∈ g ∧ DATE (lpep_pickup_datetime t) = day ∧
             trip_distance t = Some v ∧ num_le (num_of_Z 100) v = false) ∧
       (∀ t x, t ∈ g → trip_distance t = Some x →
               num_le (num_of_Z 100) x = false → num_le x v = true)).
Proof.
  unfold q4, limit. split_and!.
  - rewrite length_take. lia.
  - split.
    + intros Hnil t x Ht Hx.
      destruct (num_le (num_of_Z 100) x) eqn:Hlt; [done|exfalso].
      destruct (q4_days_covers g t x Ht Hx Hlt) as (v & Hv & _).
      rewrite <- (order_by_desc_perm snd) in Hv.
      destruct (order_by_desc snd (q4_days g)); [|done].
      by apply elem_of_nil in Hv.
    + intros Hnone. unfold q4_days. rewrite filter_none; [done|].
      intros t Ht (x & Hx & Hlt)%Is_true_true%q4_where_holds.
      by rewrite (Hnone t x Ht Hx) in Hlt.
  - intros day mx Htop.
    destruct (order_by_desc snd (q4_days g)) as [|top rest] eqn:Hsorted;
      [done|].
    assert (top = (day, mx)) as -> by (cbn in Htop; congruence).
    assert ((day, mx) ∈ q4_days g) as Hin.
    { rewrite <- (order_by_desc_perm snd), Hsorted. by left. }
    apply q4_days_attained in Hin as (v & t & -> & Ht & Hv & Hlt & Hday).
    exists v. split_and!; [done|by exists t|].
    intros t' x' Ht' Hx' Hlt'.
    destruct (q4_days_covers g t' x' Ht' Hx' Hlt') as (v' & Hv' & Hle).
    pose proof (order_by_desc_head snd _ _ _ _ Hsorted Hv') as Hrank.
    cbn in Hrank. by apply num_le_trans with v'.
Qed.

(** ** Further properties of the statements *)

Lemma q5_stages (g : list (TripRow num)) z :
  q5 g z = limit 5 (order_by_desc snd (q5_groups g z)).
Proof. reflexivity. Qed.

Lemma q6_stages (g : list (TripRow num)) z :
  q6 g z = limit 5 (order_by_desc snd (q6_groups g z)).
Proof. reflexivity. Qed.

Lemma elem_of_inner_join {A B} (on : A → B → option bool) l r a b :
  (a, b) ∈ inner_join on l r ↔ a ∈ l ∧ b ∈ r ∧ holds (on a b) = true.
Proof.
  unfold inner_join. rewrite list_elem_of_bind. split.
  - intros (a' & Hin & Ha').
    apply list_elem_of_fmap in Hin as (b' & [= -> ->] & Hb').
    apply list_elem_of_filter in Hb' as [Hon%Is_true_true Hb']. done.
  - intros (Ha & Hb & Hon). exists a. split; [|done].
    apply list_elem_of_fmap. exists b. split; [done|].
    apply list_elem_of_filter. split; [by apply Is_true_true|done].
Qed.

Lemma inner_join_app {A B} (on : A → B → option bool) l1 l2 r :
  inner_join on (l1 ++ l2) r = inner_join on l1 r ++ inner_join on l2 r.
Proof. unfold inner_join. apply bind_app. Qed.

Lemma inner_join_nil_r {A B} (on : A → B → option bool) l :
  inner_join on l [] = [].
Proof. unfold inner_join. induction l as [|a l IH]; [done|]. by cbn. Qed.

(** An equality of two nullable integers holds when both are the same
    number. *)
Lemma sql_eq_holds (x y : option Z) :
  holds (sql_cmp Z.eqb x y) = true ↔ ∃ n, x = Some n ∧ y = Some n.
Proof.
  destruct x as [a|], y as [b|]; cbn;
    [|split; [done|by intros (? & ? & ?)]..].
  destruct (Z.eqb_spec a b) as [->|Hne].
  - split; [by exists b|done].
  - split; [done|]. intros (n & [= ->] & [= ->]). done.
Qed.

(** The rows q5 aggregates: a trip and a zone with the same, known,
    location number, the trip picked up on 18 November 2025. *)
Lemma elem_of_q5_joined (g : list (TripRow num)) z t zr :
  (t, zr) ∈ q5_joined g z ↔
  t ∈ g ∧ zr ∈ z ∧
  (∃ n, PULocationID t = Some n ∧ LocationID zr = Some n) ∧
  DATE (lpep_pickup_datetime t) = Some (date_lit 2025 11 18).
Proof.
  unfold q5_joined. rewrite list_elem_of_filter, elem_of_inner_join.
  rewrite sql_eq_holds. unfold q5_where. cbn [fst].
  assert (Is_true (holds (sql_cmp Z.eqb (DATE (lpep_pickup_datetime t))
                           (Some (date_lit 2025 11 18)))) ↔
          DATE (lpep_pickup_datetime t) = Some (date_lit 2025 11 18)) as ->.
  { rewrite Is_true_true, sql_eq_holds. split.
    - by intros (n & -> & [= ->]).
    - intros ->. by eexists. }
  tauto.
Qed.

(** The groups of a GROUP BY have distinct keys. *)
Lemma group_by_keys {R K} `{EqDecision K} (key : R → K) rows :
  (group_by key rows).*1 = remove_dups (key <$> rows).
Proof.
  unfold group_by. rewrite <- list_fmap_compose.
  by rewrite <- (list_fmap_id (remove_dups _)) at 2.
Qed.

Lemma limit_order_NoDup_keys {K} n (rows : list (K * option num)) :
  NoDup rows.*1 → NoDup (limit n (order_by_desc snd rows)).*1.
Proof.
  intros Hrows. unfold limit. rewrite fmap_take.
  apply sublist_NoDup with ((order_by_desc snd rows).*1);
    [|apply sublist_take].
  by rewrite (order_by_desc_perm snd rows).
Qed.

(** X6. No zone appears twice in the result of q5, and none in the
    result of q6: every zone name (the missing name, NULL, counting as
    one name) has at most one row. *)
Theorem q5_q6_zones_distinct (g : list (TripRow num)) z :
  NoDup (q5 g z).*1 ∧ NoDup (q6 g z).*1.
Proof.
  rewrite q5_stages, q6_stages. split; apply limit_order_NoDup_keys.
  - unfold q5_groups. rewrite <- list_fmap_compose.
    change (fst ∘ _) with (fst : option string * list (TripRow num * ZoneRow) → _).
    rewrite group_by_keys. apply NoDup_remove_dups.
  - unfold q6_groups. rewrite <- list_fmap_compose.
    change (fst ∘ _)
      with (fst : option string * list (TripRow num * ZoneRow * ZoneRow) → _).
    rewrite group_by_keys. apply NoDup_remove_dups.
Qed.

Lemma limit_order_length {R} n (col : R → option num) rows :
  length (limit n (order_by_desc col rows)) = (n `min` length rows)%nat.
Proof.
  unfold limit. by rewrite length_take, (order_by_desc_perm col rows).
Qed.

Lemma limit_order_subset {R} n (col : R → option num) rows r :
  r ∈ limit n (order_by_desc col rows) → r ∈ rows.
Proof.
  intros Hr. rewrite <- (order_by_desc_perm col rows).
  by apply (subseteq_take n).
Qed.

(** A row that LIMIT cuts ranks no higher than any row it keeps. *)
Lemma limit_order_cut {R} n (col : R → option num) rows r r' :
  r ∈ rows → r ∉ limit n (order_by_desc col rows) →
  r' ∈ limit n (order_by_desc col rows) →
  pg_le (col r) (col r') = true.
Proof.
  unfold limit. intros Hr Hcut Hkept.
  pose proof (order_by_desc_sorted col rows) as Hs.
  rewrite <- (order_by_desc_perm col rows) in Hr.
  rewrite <- (take_drop n (order_by_desc col rows)) in Hs, Hr.
  apply elem_of_app in Hr as [Hr|Hr]; [done|].
  apply Is_true_true.
  by apply (StronglySorted_app_1_elem_of (desc col) _ _ r' r Hs).
Qed.

(** X7. q5 and q6 return the highest-ranking groups: each returns five
    rows when there are five groups or more and all the groups otherwise,
    every row returned is one of the groups, and a group that is left out
    has an aggregate no greater than that of any row returned. *)
Theorem q5_q6_top_groups (g : list (TripRow num)) z :
  (length (q5 g z) = 5 `min` length (q5_groups g z))%nat ∧
  (∀ r, r ∈ q5 g z → r ∈ q5_groups g z) ∧
  (∀ r r', r ∈ q5_groups g z → r ∉ q5 g z → r' ∈ q5 g z →
           pg_le r.2 r'.2 = true) ∧
  (length (q6 g z) = 5 `min` length (q6_groups g z))%nat ∧
  (∀ r, r ∈ q6 g z → r ∈ q6_groups g z) ∧
  (∀ r r', r ∈ q6_groups g z → r ∉ q6 g z → r' ∈ q6 g z →
           pg_le r.2 r'.2 = true).
Proof.
  rewrite q5_stages, q6_stages.
  split_and!;
    [apply limit_order_length
    |intros r; apply limit_order_subset
    |intros r r'; apply (limit_order_cut 5 snd)
    |apply limit_order_length
    |intros r; apply limit_order_subset
    |intros r r'; apply (limit_order_cut 5 snd)].
Qed.

Lemma aggregate_None (f : num → num → num) (l : list (option num)) :
  aggregate f l = None ↔ ∀ x, x ∈ l → x = None.
Proof.
  unfold aggregate. split.
  - intros Hagg [v|] Hx; [|done].
    assert (v ∈ omap id l) as Hv by (apply list_elem_of_omap; by exists (Some v)).
    destruct (omap id l); [by apply elem_of_nil in Hv|done].
  - intros Hall. destruct (omap id l) as [|v vs] eqn:Hl; [done|].
    assert (v ∈ omap id l) as Hv by (rewrite Hl; left).
    apply list_elem_of_omap in Hv as (x & Hx & Hid).
    apply Hall in Hx as ->. done.
Qed.

Lemma MAX_attained (l : list (option num)) v : MAX l = Some v → Some v ∈ l.
Proof.
  unfold MAX, aggregate. destruct (omap id l) as [|a xs] eqn:Hl; [done|].
  intros [= <-].
  assert (foldl num_max a xs ∈ omap id l) as Hin
    by (rewrite Hl; apply foldl_num_max_elem).
  apply list_elem_of_omap in Hin as ([y|] & Hy & [= ->]). done.
Qed.

Lemma elem_of_q5_groups (g : list (TripRow num)) z zone total :
  (zone, total) ∈ q5_groups g z ↔
  (∃ t zr, (t, zr) ∈ q5_joined g z ∧ Zone zr = zone) ∧
  total = SUM ((λ r : TripRow num * ZoneRow, total_amount r.1) <$>
               filter (λ r, Zone r.2 = zone) (q5_joined g z)).
Proof.
  unfold q5_groups. rewrite list_elem_of_fmap. split.
  - intros ([k grp] & [= -> ->] & Hgrp).
    apply elem_of_group_by in Hgrp as [([t zr] & Hr & Hk) ->]. eauto.
  - intros [(t & zr & Hr & Hk) ->]. eexists (zone, _). split; [reflexivity|].
    apply elem_of_group_by. split; [|done]. by exists (t, zr).
Qed.

(** X8. Every row of q5 stands for trips that exist: its zone is the
    zone of a row of [zones] whose location number is the pickup location
    of a trip picked up on 18 November 2025. Its sum is NULL only when
    every such trip of the zone has no total_amount. *)
Theorem q5_rows_origin (g : list (TripRow num)) z zone total :
  (zone, total) ∈ q5 g z →
  (∃ t zr n, t ∈ g ∧ zr ∈ z ∧ Zone zr = zone ∧
     PULocationID t = Some n ∧ LocationID zr = Some n ∧
     DATE (lpep_pickup_datetime t) = Some (date_lit 2025 11 18)) ∧
  (total = None ↔
   ∀ t zr n, t ∈ g → zr ∈ z → Zone zr = zone →
     PULocationID t = Some n → LocationID zr = Some n →
     DATE (lpep_pickup_datetime t) = Some (date_lit 2025 11 18) →
     total_amount t = None).
Proof.
  rewrite q5_stages. intros Hrow%limit_order_subset.
  apply elem_of_q5_groups in Hrow as [(t & zr & Hr & Hzone) ->]. split.
  - apply elem_of_q5_joined in Hr as (Ht & Hzr & (n & Hpu & Hloc) & Hday).
    by exists t, zr, n.
  - unfold SUM. rewrite aggregate_None. split.
    + intros Hall t' zr' n Ht' Hzr' Hzone' Hpu Hloc Hday.
      apply (Hall (total_amount t')). apply list_elem_of_fmap.
      exists (t', zr'). split; [done|].
      apply list_elem_of_filter. split; [done|].
      apply elem_of_q5_joined. eauto 7.
    + intros Hall x ([t' zr'] & -> & Hr')%list_elem_of_fmap.
      apply list_elem_of_filter in Hr' as [Hzone' Hr'].
      apply elem_of_q5_joined in Hr' as (Ht' & Hzr' & (n & Hpu & Hloc) & Hday).
      by apply (Hall t' zr' n).
Qed.

(** The rows q6 aggregates: a trip with its pickup zone and its dropoff
    zone, the pickup zone named East Harlem North, the pickup day in
    November 2025. *)
Lemma elem_of_q6_joined (g : list (TripRow num)) z t pu_zone do_zone :
  (t, pu_zone, do_zone) ∈ q6_joined g z ↔ q6_selects g z t pu_zone do_zone.
Proof.
  unfold q6_joined, q6_selects.
  rewrite list_elem_of_filter, !elem_of_inner_join, !sql_eq_holds. cbn [fst].
  assert (Is_true (holds (q6_where (t, pu_zone, do_zone))) ↔
          Zone pu_zone = Some "East Harlem North" ∧
          ∃ d, DATE (lpep_pickup_datetime t) = Some d ∧
               date_lit 2025 11 1 ≤ d < date_lit 2025 12 1) as ->; [|tauto].
  rewrite Is_true_true. unfold q6_where, sql_cmp.
  destruct (Zone pu_zone) as [name|], (DATE (lpep_pickup_datetime t)) as [d|];
    [|split; [by destruct (String.eqb _ _)|by intros (_ & ? & [=] & _)]
     |split; [by destruct (_ <=? _), (_ <? _)|by intros ([=] & _)]
     |split; [done|by intros ([=] & _)]].
  destruct (String.eqb_spec name "East Harlem North") as [->|Hname],
           (Z.leb_spec (date_lit 2025 11 1) d),
           (Z.ltb_spec d (date_lit 2025 12 1)); cbn [sql_and holds];
    (split;
     [first [done|intros _; split; [done|]; exists d; split_and!; done]
     |intros (Hz & d' & [= <-] & ? & ?); try done; try lia; congruence]).
Qed.

Lemma elem_of_q6_groups (g : list (TripRow num)) z zone max_tip :
  (zone, max_tip) ∈ q6_groups g z ↔
  (∃ t pu_zone do_zone,
     (t, pu_zone, do_zone) ∈ q6_joined g z ∧ Zone do_zone = zone) ∧
  max_tip = MAX ((λ r : TripRow num * ZoneRow * ZoneRow, tip_amount r.1.1) <$>
                 filter (λ r, Zone r.2 = zone) (q6_joined g z)).
Proof.
  unfold q6_groups. rewrite list_elem_of_fmap. split.
  - intros ([k grp] & [= -> ->] & Hgrp).
    apply elem_of_group_by in Hgrp as [([[t pu] dz] & Hr & Hk) ->]. eauto 6.
  - intros [(t & pu & dz & Hr & Hk) ->].
    eexists (zone, _). split; [reflexivity|].
    apply elem_of_group_by. split; [|done]. by exists (t, pu, dz).
Qed.

(** X9. Every row of q6 is a dropoff zone reached by a trip picked up in
    East Harlem North in November 2025, and its max_tip is right: when it
    is a number it is the tip of such a trip to that zone, and no such
    trip to that zone has a larger tip; it is NULL only when none of them
    has a tip. *)
Theorem q6_max_tip (g : list (TripRow num)) z zone max_tip :
  (zone, max_tip) ∈ q6 g z →
  (∃ t pu_zone do_zone,
     q6_selects g z t pu_zone do_zone ∧ Zone do_zone = zone) ∧
  (∀ v, max_tip = Some v →
     ∃ t pu_zone do_zone,
       q6_selects g z t pu_zone do_zone ∧ Zone do_zone = zone ∧
       tip_amount t = Some v) ∧
  (∀ t pu_zone do_zone tip,
     q6_selects g z t pu_zone do_zone → Zone do_zone = zone →
     tip_amount t = Some tip →
     ∃ v, max_tip = Some v ∧ num_le tip v = true).
Proof.
  rewrite q6_stages. intros Hrow%limit_order_subset.
  apply elem_of_q6_groups in Hrow as [(t0 & pu0 & dz0 & Hr0 & Hzone0) ->].
  split_and!.
  - exists t0, pu0, dz0. by rewrite <- elem_of_q6_joined.
  - intros v Hv%MAX_attained.
    apply list_elem_of_fmap in Hv as ([[t pu] dz] & Htip & Hr).
    apply list_elem_of_filter in Hr as [Hzone Hr].
    exists t, pu, dz. by rewrite <- elem_of_q6_joined.
  - intros t pu dz tip Hr%elem_of_q6_joined Hzone Htip.
    destruct (MAX_spec
                ((λ r : TripRow num * ZoneRow * ZoneRow, tip_amount r.1.1) <$>
                 filter (λ r, Zone r.2 = zone) (q6_joined g z)) tip)
      as (v & Hv & _ & Hub).
    { apply list_elem_of_fmap. exists (t, pu, dz). split; [done|].
      by apply list_elem_of_filter. }
    exists v. split; [done|]. apply Hub.
    apply list_elem_of_fmap. exists (t, pu, dz). split; [done|].
    by apply list_elem_of_filter.
Qed.

Lemma grouped_nil {R K B} `{EqDecision K} (key : R → K)
    (f : K * list R → B) rows :
  f <$> group_by key rows = [] ↔ rows = [].
Proof.
  split; [|by intros ->].
  intros Hnil%fmap_nil_inv. unfold group_by in Hnil.
  apply fmap_nil_inv in Hnil. destruct rows as [|r rows]; [done|].
  assert (key r ∈ remove_dups (key <$> r :: rows)) as Hin
    by (apply elem_of_remove_dups; left).
  rewrite Hnil in Hin. by apply elem_of_nil in Hin.
Qed.

(** X10. When the statements return no row: q4 on an empty trip table,
    q5 and q6 on an empty trip table or an empty zone table, and, more
    precisely, q5 returns no row exactly when no trip picked up on 18
    November 2025 has its pickup location in [zones], and q6 exactly when
    no trip, pickup zone and dropoff zone fit together. q3 on an empty
    table still returns its one row, with count 0. *)
Theorem queries_empty_results (g : list (TripRow num)) z :
  q3 (num := num) [] = [0] ∧ q4 (num := num) [] = [] ∧
  q5 [] z = [] ∧ q6 [] z = [] ∧ q5 g [] = [] ∧ q6 g [] = [] ∧
  (q5 g z = [] ↔
   ∀ t zr n, t ∈ g → zr ∈ z →
     PULocationID t = Some n → LocationID zr = Some n →
     DATE (lpep_pickup_datetime t) ≠ Some (date_lit 2025 11 18)) ∧
  (q6 g z = [] ↔ ∀ t pu_zone do_zone, ¬ q6_selects g z t pu_zone do_zone).
Proof.
  assert (∀ (rows : list (option string * option num)),
            limit 5 (order_by_desc snd rows) = [] ↔ rows = []) as Hcut.
  { intros rows. split; [|by intros ->].
    intros Hnil. apply (f_equal length) in Hnil.
    rewrite limit_order_length in Hnil. destruct rows; [done|cbn in Hnil; lia]. }
  split_and!; try reflexivity.
  - unfold q5. by rewrite inner_join_nil_r.
  - unfold q6. by rewrite !inner_join_nil_r.
  - rewrite q5_stages, Hcut. unfold q5_groups. rewrite grouped_nil. split.
    + intros Hnil t zr n Ht Hzr Hpu Hloc Hday.
      assert ((t, zr) ∈ q5_joined g z) as Hr
        by (apply elem_of_q5_joined; eauto 7).
      rewrite Hnil in Hr. by apply elem_of_nil in Hr.
    + intros Hnone. destruct (q5_joined g z) as [|[t zr] rest] eqn:Hj; [done|].
      assert ((t, zr) ∈ q5_joined g z) as Hr by (rewrite Hj; left).
      apply elem_of_q5_joined in Hr as (Ht & Hzr & (n & Hpu & Hloc) & Hday).
      by destruct (Hnone t zr n).
  - rewrite q6_stages, Hcut. unfold q6_groups. rewrite grouped_nil. split.
    + intros Hnil t pu dz Hr%elem_of_q6_joined.
      rewrite Hnil in Hr. by apply elem_of_nil in Hr.
    + intros Hnone.
      destruct (q6_joined g z) as [|[[t pu] dz] rest] eqn:Hj; [done|].
      assert ((t, pu, dz) ∈ q6_joined g z) as Hr by (rewrite Hj; left).
      apply elem_of_q6_joined in Hr. by destruct (Hnone t pu dz).
Qed.

(** X11. The count of q3 is between 0 and the number of rows of the
    table, it adds up over a table made of two parts, and a single trip
    counts for 1 exactly when its pickup time is known and in
    [2025-11-01, 2025-12-01) and its distance is known and at most 1. *)
Theorem q3_count (g1 g2 : list (TripRow num)) (t : TripRow num) :
  ∃ c1 c2,
    q3 g1 = [c1] ∧ q3 g2 = [c2] ∧ q3 (g1 ++ g2) = [c1 + c2] ∧
    0 ≤ c1 ≤ Z.of_nat (length g1) ∧
    (q3 [t] = [1] ∨ q3 [t] = [0]) ∧
    (q3 [t] = [1] ↔
     ∃ ts d, lpep_pickup_datetime t = Some ts ∧ trip_distance t = Some d ∧
             timestamp_lit 2025 11 1 ≤ ts < timestamp_lit 2025 12 1 ∧
             num_le d (num_of_Z 1) = true).
Proof.
  eexists _, _. split_and!; [reflexivity|reflexivity| |lia| | |].
  - unfold q3. rewrite filter_app, length_app. f_equal. lia.
  - pose proof (length_filter (λ t, holds (q3_where t)) g1). lia.
  - unfold q3. rewrite filter_cons.
    destruct (decide (holds (q3_where t))); auto.
  - rewrite <- q3_where_holds. unfold q3. rewrite filter_cons.
    destruct (decide (holds (q3_where t))) as [Hyes|Hno]; cbn.
    + by apply Is_true_true in Hyes.
    + split; [done|]. intros Hyes%Is_true_true. done.
Qed.

(** X12. A trip without a distance, or with a distance of 100 or more,
    makes no difference to q4, wherever it stands in the table. *)
Theorem q4_ignores_excluded (g1 g2 : list (TripRow num)) (t : TripRow num) :
  (trip_distance t = None ∨
   ∃ x, trip_distance t = Some x ∧ num_le (num_of_Z 100) x = true) →
  q4 (g1 ++ t :: g2) = q4 (g1 ++ g2).
Proof.
  intros Hexcl. unfold q4, q4_days.
  rewrite !filter_app, filter_cons_False; [done|].
  intros (x & Hx & Hlt)%Is_true_true%q4_where_holds.
  destruct Hexcl as [Hnone|(y & Hy & Hge)]; congruence.
Qed.

(** X13. A trip that was not picked up on 18 November 2025, or whose
    pickup location is unknown or is not the location number of any row
    of [zones], makes no difference to q5. *)
Theorem q5_ignores_unmatched (g1 g2 : list (TripRow num)) z (t : TripRow num) :
  (DATE (lpep_pickup_datetime t) ≠ Some (date_lit 2025 11 18) ∨
   PULocationID t = None ∨
   ∀ zr, zr ∈ z → LocationID zr ≠ PULocationID t) →
  q5 (g1 ++ t :: g2) z = q5 (g1 ++ g2) z.
Proof.
  intros Hunmatched.
  assert (q5_joined (g1 ++ t :: g2) z = q5_joined (g1 ++ g2) z) as Hsame.
  { unfold q5_joined.
    rewrite (inner_join_app _ g1 (t :: g2)), (inner_join_app _ [t] g2 z : 
      inner_join _ (t :: g2) z = _), (inner_join_app _ g1 g2).
    rewrite !filter_app. f_equal.
    rewrite <- (app_nil_l (filter _ (inner_join _ g2 z))) at 2. f_equal.
    apply filter_none. intros [t' zr] Hin Hkeep.
    assert ((t', zr) ∈ q5_joined [t] z) as Hr
      by (unfold q5_joined; by apply list_elem_of_filter).
    apply elem_of_q5_joined in Hr as (Ht'%list_elem_of_singleton & Hzr &
                                      (n & Hpu & Hloc) & Hday).
    subst t'. destruct Hunmatched as [Hd|[Hn|Hz]]; [done|congruence|].
    apply (Hz zr Hzr). congruence. }
  rewrite !q5_stages. unfold q5_groups. by rewrite Hsame.
Qed.

End sql_proofs.

(** * Properties of the ingestion script *)

Section ingest_proofs.
Import Homework.
Context {num : Type} `{Numeric num}.

Implicit Types (w : world num).

(** One step of a run at a time: what each call does to the world and
    how the run goes on. *)
Lemma py_bind_assoc {W A B C} (m : py W A) (g : A → py W B) (f : B → py W C)
    (st : W) :
  ((m ≫= g) ≫= f) st = (m ≫= (λ x, g x ≫= f)) st.
Proof. unfold mbind, py_bind. by destruct (m st) as [[e|a] st']. Qed.

Lemma step_print {A} os (k : unit → py (world num) A) out fl d :
  (print os ≫= k) {| stdout := out; files := fl; db := d |} =
  k tt {| stdout := out ++ [os]; files := fl; db := d |}.
Proof. reflexivity. Qed.

Lemma step_read_parquet {A} path (k : list (TripRow num) → py (world num) A)
    out fl d :
  (read_parquet path ≫= k) {| stdout := out; files := fl; db := d |} =
  match fl !! path with
  | Some (Parquet rows) => k rows {| stdout := out; files := fl; db := d |}
  | Some (Csv _) => (inl ValueError, {| stdout := out; files := fl; db := d |})
  | None => (inl FileNotFoundError, {| stdout := out; files := fl; db := d |})
  end.
Proof.
  unfold read_parquet, mbind, py_bind. cbn [files].
  by destruct (fl !! path) as [[rows|rows]|].
Qed.

Lemma step_read_csv {A} path (k : list ZoneRow → py (world num) A) out fl d :
  (read_csv path ≫= k) {| stdout := out; files := fl; db := d |} =
  match fl !! path with
  | Some (Csv rows) => k rows {| stdout := out; files := fl; db := d |}
  | Some (Parquet _) => (inl ValueError, {| stdout := out; files := fl; db := d |})
  | None => (inl FileNotFoundError, {| stdout := out; files := fl; db := d |})
  end.
Proof.
  unfold read_csv, mbind, py_bind. cbn [files].
  by destruct (fl !! path) as [[rows|rows]|].
Qed.

Lemma step_to_sql {A} t name (k : unit → py (world num) A) out fl u tb rq :
  (to_sql t name ≫= k)
    {| stdout := out; files := fl;
       db := {| up := u; tables := tb; requests := rq |} |} =
  if u then
    k tt {| stdout := out; files := fl;
            db := {| up := true; tables := <[name := t]> tb;
                     requests := rq ++ [Replace name] |} |}
  else
    (inl OperationalError,
     {| stdout := out; files := fl;
        db := {| up := u; tables := tb; requests := rq |} |}).
Proof. unfold to_sql, mbind, py_bind. cbn [db up]. by destruct u. Qed.

Lemma last_print os out fl (d : database num) :
  print os {| stdout := out; files := fl; db := d |} =
  (inr tt, {| stdout := out ++ [os]; files := fl; db := d |}).
Proof. reflexivity. Qed.

Ltac step_prints :=
  repeat first
    [ rewrite py_bind_assoc
    | rewrite step_print
    | rewrite last_print ];
  cbv beta.

(** A complete run: both files are read and both tables replaced. *)
Lemma ingest_main_ok w green zs :
  files w !! "green_tripdata_2025-11.parquet" = Some (Parquet green) →
  files w !! "taxi_zone_lookup.csv" = Some (Csv zs) →
  up (db w) = true →
  (ingest_main w).1 = inr tt ∧
  files (ingest_main w).2 = files w ∧
  db (ingest_main w).2 =
    {| up := true;
       tables := <["zones" := Zones zs]>
                   (<["green_taxi_data" := Trips green]> (tables (db w)));
       requests := requests (db w) ++
                   [Replace "green_taxi_data"; Replace "zones"] |}.
Proof.
  destruct w as [out fl [u tb rq]]. cbn [files db up tables requests].
  intros Hgreen Hzones ->. unfold ingest_main, banner.
  step_prints. rewrite step_read_parquet, Hgreen.
  step_prints. rewrite step_to_sql.
  step_prints. rewrite step_read_csv, Hzones.
  step_prints. rewrite step_to_sql.
  step_prints. cbn [fst snd files db]. by rewrite <- app_assoc.
Qed.

(** The trip file cannot be read: nothing reaches the server. *)
Lemma ingest_main_no_trips w :
  (∀ green, files w !! "green_tripdata_2025-11.parquet" ≠ Some (Parquet green)) →
  succeeded (ingest_main w) = false ∧ db (ingest_main w).2 = db w.
Proof.
  destruct w as [out fl d]. cbn [files db].
  intros Hgreen. unfold succeeded, ingest_main, banner.
  step_prints. rewrite step_read_parquet.
  destruct (fl !! "green_tripdata_2025-11.parquet") as [[green|zs]|];
    [by destruct (Hgreen green)|done|done].
Qed.

(** The server is down: the first load fails, nothing changes. *)
Lemma ingest_main_down w :
  up (db w) = false →
  succeeded (ingest_main w) = false ∧ db (ingest_main w).2 = db w.
Proof.
  destruct w as [out fl [u tb rq]]. cbn [files db up].
  intros ->. unfold succeeded, ingest_main, banner.
  step_prints. rewrite step_read_parquet.
  destruct (fl !! "green_tripdata_2025-11.parquet") as [[green|zs]|];
    [|done|done].
  step_prints. by rewrite step_to_sql.
Qed.

(** The zone file cannot be read: the run stops between the two loads. *)
Lemma ingest_main_no_zones w green :
  files w !! "green_tripdata_2025-11.parquet" = Some (Parquet green) →
  up (db w) = true →
  (∀ zs, files w !! "taxi_zone_lookup.csv" ≠ Some (Csv zs)) →
  (ingest_main w).1 =
    inl (if files w !! "taxi_zone_lookup.csv" is Some _
         then ValueError else FileNotFoundError) ∧
  files (ingest_main w).2 = files w ∧
  db (ingest_main w).2 =
    {| up := true;
       tables := <["green_taxi_data" := Trips green]> (tables (db w));
       requests := requests (db w) ++ [Replace "green_taxi_data"] |}.
Proof.
  destruct w as [out fl [u tb rq]]. cbn [files db up tables requests].
  intros Hgreen -> Hzones. unfold ingest_main, banner.
  step_prints. rewrite step_read_parquet, Hgreen.
  step_prints. rewrite step_to_sql.
  step_prints. rewrite step_read_csv.
  destruct (fl !! "taxi_zone_lookup.csv") as [[green'|zs]|];
    [done|by destruct (Hzones zs)|done].
Qed.

(** C5. With both source files readable and the server up, the script
    can be run twice in a row; both runs end without exception and leave
    the source files alone. After the second run [green_taxi_data] holds
    exactly the rows of the trip file and [zones] exactly the rows of the
    zone file, once each: the second run replaced what the first had
    written, the relations are the same as after the first run, and no
    other relation was touched. *)
Theorem ingest_main_twice w green zs :
  files w !! "green_tripdata_2025-11.parquet" = Some (Parquet green) →
  files w !! "taxi_zone_lookup.csv" = Some (Csv zs) →
  up (db w) = true →
  let w1 := (ingest_main w).2 in
  let w2 := (ingest_main w1).2 in
  (ingest_main w).1 = inr tt ∧ (ingest_main w1).1 = inr tt ∧
  files w2 = files w ∧
  tables (db w2) !! "green_taxi_data" = Some (Trips green) ∧
  tables (db w2) !! "zones" = Some (Zones zs) ∧
  tables (db w2) = tables (db w1) ∧
  (∀ name, name ≠ "green_taxi_data" → name ≠ "zones" →
     tables (db w2) !! name = tables (db w) !! name) ∧
  requests_during ingest_main w1 = [Replace "green_taxi_data"; Replace "zones"].
Proof.
  intros Hgreen Hzones Hup w1 w2.
  destruct (ingest_main_ok w green zs Hgreen Hzones Hup) as (Hr1 & Hf1 & Hdb1).
  fold w1 in Hf1, Hdb1.
  assert (up (db w1) = true) as Hup1 by (by rewrite Hdb1).
  destruct (ingest_main_ok w1 green zs) as (Hr2 & Hf2 & Hdb2);
    [by rewrite Hf1|by rewrite Hf1|done|].
  fold w2 in Hf2, Hdb2.
  assert (tables (db w2) = tables (db w1)) as Hsame.
  { rewrite Hdb2, Hdb1. cbn [tables]. apply map_eq. intros name.
    destruct (decide (name = "zones")) as [->|Hz];
      [by rewrite !lookup_insert_eq|rewrite !(lookup_insert_ne _ "zones") by done].
    destruct (decide (name = "green_taxi_data")) as [->|Hg];
      [by rewrite !lookup_insert_eq|by rewrite !lookup_insert_ne]. }
  split_and!; [done|done|congruence| | |done| |].
  - rewrite Hsame, Hdb1. cbn [tables].
    by rewrite lookup_insert_ne, lookup_insert_eq.
  - rewrite Hsame, Hdb1. cbn [tables]. by rewrite lookup_insert_eq.
  - intros name Hg Hz. rewrite Hsame, Hdb1. cbn [tables].
    by rewrite !lookup_insert_ne.
  - unfold requests_during. fold w2. rewrite Hdb2. cbn [requests].
    by rewrite drop_app_length.
Qed.

(** C6. When a run raises an exception after it has sent a load to the
    server, the trip file had been read and loaded and it is the zone
    file that could not be read. The database is then left between the
    two loads: [green_taxi_data] holds the rows of the trip file, [zones]
    and every other relation are what they were before the run, and the
    only request the server received is the replacement of
    [green_taxi_data]. Nothing undoes it. *)
Theorem ingest_main_partial_load w :
  succeeded (ingest_main w) = false →
  requests_during ingest_main w ≠ [] →
  let w' := (ingest_main w).2 in
  ∃ green,
    files w !! "green_tripdata_2025-11.parquet" = Some (Parquet green) ∧
    (∀ zs, files w !! "taxi_zone_lookup.csv" ≠ Some (Csv zs)) ∧
    tables (db w') = <["green_taxi_data" := Trips green]> (tables (db w)) ∧
    tables (db w') !! "green_taxi_data" = Some (Trips green) ∧
    (∀ name, name ≠ "green_taxi_data" →
       tables (db w') !! name = tables (db w) !! name) ∧
    requests_during ingest_main w = [Replace "green_taxi_data"].
Proof.
  intros Hfail Hsent w'.
  destruct (files w !! "green_tripdata_2025-11.parquet") as [[green|zs0]|]
    eqn:Hgreen.
  2,3: exfalso; apply Hsent; unfold requests_during;
       destruct (ingest_main_no_trips w) as [_ ->];
       [intros ?; congruence|apply drop_all].
  destruct (up (db w)) eqn:Hup.
  2:{ exfalso. apply Hsent. unfold requests_during.
      destruct (ingest_main_down w Hup) as [_ ->]. apply drop_all. }
  destruct (files w !! "taxi_zone_lookup.csv") as [[green'|zs]|] eqn:Hzones.
  2:{ destruct (ingest_main_ok w green zs Hgreen Hzones Hup) as (Hr & _).
      unfold succeeded in Hfail. by rewrite Hr in Hfail. }
  all: destruct (ingest_main_no_zones w green Hgreen Hup) as (_ & _ & Hdb);
    [intros ?; congruence|]; fold w' in Hdb;
    exists green; unfold requests_during; fold w'; rewrite Hdb; cbn [tables requests];
    split_and!;
    [done|intros ?; congruence|done|by rewrite lookup_insert_eq
    |by intros name ?; rewrite lookup_insert_ne|by rewrite drop_app_length].
Qed.

(** ** Further properties of the ingestion script *)

(** How a run ends, with the files and the database it leaves. *)
Lemma ingest_main_cases w :
  ((ingest_main w).1, files (ingest_main w).2, db (ingest_main w).2) =
    match files w !! "green_tripdata_2025-11.parquet" with
    | None => (inl FileNotFoundError, files w, db w)
    | Some (Csv _) => (inl ValueError, files w, db w)
    | Some (Parquet green) =>
        if up (db w) then
          let loaded :=
            {| up := true;
               tables := <["green_taxi_data" := Trips green]> (tables (db w));
               requests := requests (db w) ++ [Replace "green_taxi_data"] |} in
          match files w !! "taxi_zone_lookup.csv" with
          | None => (inl FileNotFoundError, files w, loaded)
          | Some (Parquet _) => (inl ValueError, files w, loaded)
          | Some (Csv zs) =>
              (inr tt, files w,
               {| up := true;
                  tables := <["zones" := Zones zs]> (tables loaded);
                  requests := requests loaded ++ [Replace "zones"] |})
          end
        else (inl OperationalError, files w, db w)
    end.
Proof.
  destruct w as [out fl [u tb rq]]. cbn [files db up tables requests].
  unfold ingest_main, banner.
  step_prints. rewrite step_read_parquet.
  destruct (fl !! "green_tripdata_2025-11.parquet") as [[green|zs0]|];
    [|done|done].
  step_prints. rewrite step_to_sql. destruct u; [|done].
  step_prints. rewrite step_read_csv.
  destruct (fl !! "taxi_zone_lookup.csv") as [[green'|zs]|]; [done| |done].
  step_prints. rewrite step_to_sql.
  step_prints. reflexivity.
Qed.

(** X18. How a run of the ingestion script ends: FileNotFoundError when
    the trip file is missing and ValueError when it is no parquet file;
    then OperationalError when the server is down; then
    FileNotFoundError or ValueError for the zone file in the same way;
    otherwise the run is complete. The trip file is looked at first, so
    a missing trip file is reported even when the server is down too. *)
Theorem ingest_main_outcome w :
  (ingest_main w).1 =
    match files w !! "green_tripdata_2025-11.parquet" with
    | None => inl FileNotFoundError
    | Some (Csv _) => inl ValueError
    | Some (Parquet _) =>
        if up (db w) then
          match files w !! "taxi_zone_lookup.csv" with
          | None => inl FileNotFoundError
          | Some (Parquet _) => inl ValueError
          | Some (Csv _) => inr tt
          end
        else inl OperationalError
    end.
Proof.
  pose proof (f_equal (λ r, r.1.1) (ingest_main_cases w)) as Hc. cbn in Hc.
  rewrite Hc. repeat case_match; done.
Qed.

(** X19. The ingestion script never writes to the files: after any run,
    complete or not, they are what they were. It never touches a
    relation other than [green_taxi_data] and [zones] either. *)
Theorem ingest_main_footprint w :
  files (ingest_main w).2 = files w ∧
  ∀ name, name ≠ "green_taxi_data" → name ≠ "zones" →
    tables (db (ingest_main w).2) !! name = tables (db w) !! name.
Proof.
  pose proof (f_equal (λ r, r.1.2) (ingest_main_cases w)) as Hfiles.
  pose proof (f_equal snd (ingest_main_cases w)) as Hdb.
  cbn [fst snd] in Hfiles, Hdb. rewrite Hfiles, Hdb. split.
  - repeat case_match; done.
  - intros name Hg Hz.
    repeat case_match; cbn [tables fst snd]; rewrite ?lookup_insert_ne; done.
Qed.

(** X20. When the trip file cannot be read or the server is down, the run
    stops before anything is loaded: the database is exactly what it was,
    the rows of an earlier ingestion included. *)
Theorem ingest_main_early_failure w :
  (∀ green, files w !! "green_tripdata_2025-11.parquet" ≠ Some (Parquet green)) ∨
  up (db w) = false →
  succeeded (ingest_main w) = false ∧ db (ingest_main w).2 = db w.
Proof.
  intros Hearly.
  pose proof (f_equal (λ r, r.1.1) (ingest_main_cases w)) as Hres.
  pose proof (f_equal snd (ingest_main_cases w)) as Hdb.
  cbn [fst snd] in Hres, Hdb. unfold succeeded. rewrite Hres, Hdb.
  destruct Hearly as [Hfile|Hup].
  - destruct (files w !! "green_tripdata_2025-11.parquet") as [[green|zs0]|];
      [by destruct (Hfile green)|done|done].
  - rewrite Hup. repeat case_match; done.
Qed.

(** X21. A run that stopped at the zone file is repaired by running the
    script again once the zone file is readable: the second run is
    complete and leaves the relations that a single run with both files
    in place would have left. *)
Theorem ingest_main_repair w green zs :
  files w !! "green_tripdata_2025-11.parquet" = Some (Parquet green) →
  up (db w) = true →
  (∀ zs', files w !! "taxi_zone_lookup.csv" ≠ Some (Csv zs')) →
  let put_zone_file (w0 : world num) :=
    {| stdout := stdout w0;
       files := <["taxi_zone_lookup.csv" := Csv zs]> (files w0);
       db := db w0 |} in
  let w1 := (ingest_main w).2 in
  succeeded (ingest_main w) = false ∧
  (ingest_main (put_zone_file w1)).1 = inr tt ∧
  tables (db (ingest_main (put_zone_file w1)).2) =
    tables (db (ingest_main (put_zone_file w)).2).
Proof.
  intros Hgreen Hup Hzones put_zone_file w1.
  destruct (ingest_main_no_zones w green Hgreen Hup Hzones) as (Hr1 & Hf1 & Hdb1).
  fold w1 in Hf1, Hdb1.
  destruct (ingest_main_ok (put_zone_file w1) green zs) as (Hr2 & _ & Hdb2).
  { cbn [files put_zone_file]. rewrite lookup_insert_ne by done.
    by rewrite Hf1. }
  { cbn [files put_zone_file]. by rewrite lookup_insert_eq. }
  { cbn [db put_zone_file]. by rewrite Hdb1. }
  destruct (ingest_main_ok (put_zone_file w) green zs) as (_ & _ & Hdb3).
  { cbn [files put_zone_file]. by rewrite lookup_insert_ne. }
  { cbn [files put_zone_file]. by rewrite lookup_insert_eq. }
  { done. }
  split_and!; [unfold succeeded; by rewrite Hr1|done|].
  rewrite Hdb2, Hdb3. cbn [db tables put_zone_file]. rewrite Hdb1. cbn [tables].
  by rewrite insert_insert_eq.
Qed.

End ingest_proofs.

(** * Properties of the query script *)

Section queries_proofs.
Import Homework.
Context {num : Type} `{Numeric num}.

Implicit Types (w : world num) (g : list (TripRow num)) (z : list ZoneRow).

Lemma run_query_ok n d q w r :
  up (db w) = true →
  execute q (tables (db w)) = Some r →
  run_query n d q w =
    (inr r,
     {| stdout := stdout w ++ query_block n d q r; files := files w;
        db := {| up := true; tables := tables (db w);
                 requests := requests (db w) ++ [Select q] |} |}).
Proof.
  intros Hup Hex.
  unfold run_query, read_sql, print, modify, mbind, py_bind, mret, py_ret.
  cbn [stdout files db]. rewrite Hup, Hex. cbn [stdout files db].
  repeat rewrite <- (app_assoc (stdout w)). reflexivity.
Qed.

Lemma run_query_missing n d q w :
  up (db w) = true →
  execute q (tables (db w)) = None →
  run_query n d q w =
    (inl DatabaseError,
     {| stdout := stdout w ++ query_header n d q; files := files w;
        db := {| up := true; tables := tables (db w);
                 requests := requests (db w) ++ [Select q] |} |}).
Proof.
  intros Hup Hex.
  unfold run_query, read_sql, print, modify, mbind, py_bind, mret, py_ret.
  cbn [stdout files db]. rewrite Hup, Hex.
  repeat rewrite <- (app_assoc (stdout w)). reflexivity.
Qed.

Lemma run_query_down n d q w :
  up (db w) = false →
  run_query n d q w =
    (inl OperationalError,
     {| stdout := stdout w ++ query_header n d q; files := files w; db := db w |}).
Proof.
  intros Hup.
  unfold run_query, read_sql, print, modify, mbind, py_bind, mret, py_ret.
  cbn [stdout files db]. rewrite Hup.
  repeat rewrite <- (app_assoc (stdout w)). reflexivity.
Qed.

Lemma execute_Q3 w g :
  trips_of (tables (db w)) = Some g →
  execute Q3 (tables (db w)) = Some (Counts (q3 g)).
Proof. intros Hg. unfold execute. by rewrite Hg. Qed.

Lemma execute_Q4 w g :
  trips_of (tables (db w)) = Some g →
  execute Q4 (tables (db w)) = Some (DayMax (q4 g)).
Proof. intros Hg. unfold execute. by rewrite Hg. Qed.

Lemma execute_Q5 w g z :
  trips_of (tables (db w)) = Some g → zones_of (tables (db w)) = Some z →
  execute Q5 (tables (db w)) = Some (ZoneAgg (q5 g z)).
Proof. intros Hg Hz%zones_of_keyed. unfold execute. by rewrite Hg, Hz. Qed.

Lemma execute_Q6 w g z :
  trips_of (tables (db w)) = Some g → zones_of (tables (db w)) = Some z →
  execute Q6 (tables (db w)) = Some (ZoneAgg (q6 g z)).
Proof. intros Hg Hz. unfold execute. by rewrite Hg, Hz. Qed.

(** A complete run, in one equation. *)
Lemma queries_main_ok w g z :
  up (db w) = true →
  trips_of (tables (db w)) = Some g →
  zones_of (tables (db w)) = Some z →
  queries_main w =
    (inr tt,
     {| stdout := stdout w ++ queries_transcript g z; files := files w;
        db := {| up := true; tables := tables (db w);
                 requests := requests (db w) ++
                             [Select Q3; Select Q4; Select Q5; Select Q6] |} |}).
Proof.
  intros Hup Hg Hz. unfold queries_main, mbind, py_bind.
  rewrite (run_query_ok _ _ Q3 w _ Hup (execute_Q3 w g Hg)).
  erewrite (run_query_ok _ _ Q4); [|reflexivity|by apply (execute_Q4 w)].
  erewrite (run_query_ok _ _ Q5); [|reflexivity|by apply (execute_Q5 w)].
  erewrite (run_query_ok _ _ Q6); [|reflexivity|by apply (execute_Q6 w)].
  cbn [stdout files db tables requests mret py_ret].
  unfold queries_transcript.
  repeat rewrite <- (app_assoc (stdout w)).
  repeat rewrite <- (app_assoc (requests (db w))).
  repeat rewrite <- app_assoc. reflexivity.
Qed.

(** A run that ends without exception had the server up and both
    relations in place. *)
Lemma queries_main_needs w :
  succeeded (queries_main w) = true →
  up (db w) = true ∧
  is_Some (trips_of (tables (db w))) ∧ is_Some (zones_of (tables (db w))).
Proof.
  destruct (up (db w)) eqn:Hup.
  2:{ unfold queries_main, mbind, py_bind.
      by rewrite (run_query_down _ _ Q3 w Hup). }
  destruct (trips_of (tables (db w))) as [g|] eqn:Hg.
  2:{ unfold queries_main, mbind, py_bind.
      rewrite (run_query_missing _ _ Q3 w Hup); [done|].
      unfold execute. by rewrite Hg. }
  destruct (zones_of (tables (db w))) as [z|] eqn:Hz; [by eauto|].
  unfold queries_main, mbind, py_bind.
  rewrite (run_query_ok _ _ Q3 w _ Hup (execute_Q3 w g Hg)).
  erewrite (run_query_ok _ _ Q4); [|reflexivity|by apply (execute_Q4 w)].
  destruct (zones_keyed_of (tables (db w))) as [z|] eqn:Hkeyed.
  - erewrite (run_query_ok _ _ Q5);
      [|reflexivity|cbn [db tables]; unfold execute; by rewrite Hg, Hkeyed].
    erewrite (run_query_missing _ _ Q6); [done|reflexivity|].
    cbn [db tables]. unfold execute. by rewrite Hg, Hz.
  - erewrite (run_query_missing _ _ Q5); [done|reflexivity|].
    cbn [db tables]. unfold execute. by rewrite Hg, Hkeyed.
Qed.

(** C1, amended. A run of the query script that ends without exception
    has executed exactly four statements, q3, q4, q5 and q6 in that order,
    each against the same two relations (nothing is written), and has
    printed for each one its heading, the query and its result table. *)
Theorem queries_main_four_statements w :
  succeeded (queries_main w) = true →
  ∃ g z,
    trips_of (tables (db w)) = Some g ∧
    zones_of (tables (db w)) = Some z ∧
    requests_during queries_main w
      = [Select Q3; Select Q4; Select Q5; Select Q6] ∧
    stdout (queries_main w).2 = stdout w ++ queries_transcript g z ∧
    tables (db (queries_main w).2) = tables (db w).
Proof.
  intros Hok. apply queries_main_needs in Hok as (Hup & [g Hg] & [z Hz]).
  exists g, z. unfold requests_during.
  rewrite (queries_main_ok w g z Hup Hg Hz). cbn [snd stdout db tables requests].
  by rewrite drop_app_length.
Qed.

(** ** Further properties of the query script *)

Lemma queries_main_down w :
  up (db w) = false →
  queries_main w =
    (inl OperationalError,
     {| stdout := stdout w ++
          query_header 3 "Counting short trips (distance <= 1 mile)" Q3;
        files := files w; db := db w |}).
Proof.
  intros Hup. unfold queries_main, mbind, py_bind.
  by rewrite (run_query_down _ _ Q3 w Hup).
Qed.

Lemma queries_main_no_trips w :
  up (db w) = true →
  trips_of (tables (db w)) = None →
  queries_main w =
    (inl DatabaseError,
     {| stdout := stdout w ++
          query_header 3 "Counting short trips (distance <= 1 mile)" Q3;
        files := files w;
        db := {| up := true; tables := tables (db w);
                 requests := requests (db w) ++ [Select Q3] |} |}).
Proof.
  intros Hup Hg. unfold queries_main, mbind, py_bind.
  rewrite (run_query_missing _ _ Q3 w Hup); [done|].
  unfold execute. by rewrite Hg.
Qed.

Lemma queries_main_no_zones w g :
  up (db w) = true →
  trips_of (tables (db w)) = Some g →
  zones_keyed_of (tables (db w)) = None →
  queries_main w =
    (inl DatabaseError,
     {| stdout := stdout w ++
          query_block 3 "Counting short trips (distance <= 1 mile)" Q3
            (Counts (q3 g)) ++
          query_block 4 "Day with longest trip distance" Q4 (DayMax (q4 g)) ++
          query_header 5 "Pickup zone with largest total_amount on Nov 18" Q5;
        files := files w;
        db := {| up := true; tables := tables (db w);
                 requests := requests (db w) ++
                             [Select Q3; Select Q4; Select Q5] |} |}).
Proof.
  intros Hup Hg Hz. unfold queries_main, mbind, py_bind.
  rewrite (run_query_ok _ _ Q3 w _ Hup (execute_Q3 w g Hg)).
  erewrite (run_query_ok _ _ Q4); [|reflexivity|by apply (execute_Q4 w)].
  erewrite (run_query_missing _ _ Q5);
    [|reflexivity|cbn [db tables]; unfold execute; by rewrite Hg, Hz].
  cbn [stdout files db tables requests].
  repeat rewrite <- (app_assoc (stdout w)).
  repeat rewrite <- (app_assoc (requests (db w))).
  repeat rewrite <- app_assoc. reflexivity.
Qed.

Lemma queries_main_no_zone_names w g z :
  up (db w) = true →
  trips_of (tables (db w)) = Some g →
  zones_keyed_of (tables (db w)) = Some z →
  zones_of (tables (db w)) = None →
  queries_main w =
    (inl DatabaseError,
     {| stdout := stdout w ++
          query_block 3 "Counting short trips (distance <= 1 mile)" Q3
            (Counts (q3 g)) ++
          query_block 4 "Day with longest trip distance" Q4 (DayMax (q4 g)) ++
          query_block 5 "Pickup zone with largest total_amount on Nov 18" Q5
            (ZoneAgg (q5 g z)) ++
          query_header 6 "Dropoff zone with largest tip from East Harlem North"
            Q6;
        files := files w;
        db := {| up := true; tables := tables (db w);
                 requests := requests (db w) ++
                             [Select Q3; Select Q4; Select Q5; Select Q6] |} |}).
Proof.
  intros Hup Hg Hkeyed Hz. unfold queries_main, mbind, py_bind.
  rewrite (run_query_ok _ _ Q3 w _ Hup (execute_Q3 w g Hg)).
  erewrite (run_query_ok _ _ Q4); [|reflexivity|by apply (execute_Q4 w)].
  erewrite (run_query_ok _ _ Q5);
    [|reflexivity|cbn [db tables]; unfold execute; by rewrite Hg, Hkeyed].
  erewrite (run_query_missing _ _ Q6);
    [|reflexivity|cbn [db tables]; unfold execute; by rewrite Hg, Hz].
  cbn [stdout files db tables requests].
  repeat rewrite <- (app_assoc (stdout w)).
  repeat rewrite <- (app_assoc (requests (db w))).
  repeat rewrite <- app_assoc. reflexivity.
Qed.

(** X14. The query script only reads: after any run, complete or not,
    the relations of the database and the files are what they were, and
    so is the availability of the server. *)
Theorem queries_main_read_only w :
  tables (db (queries_main w).2) = tables (db w) ∧
  files (queries_main w).2 = files w ∧
  up (db (queries_main w).2) = up (db w).
Proof.
  destruct (up (db w)) eqn:Hup; [|by rewrite (queries_main_down w Hup)].
  destruct (trips_of (tables (db w))) as [g|] eqn:Hg;
    [|by rewrite (queries_main_no_trips w Hup Hg)].
  destruct (zones_keyed_of (tables (db w))) as [z|] eqn:Hkeyed;
    [|by rewrite (queries_main_no_zones w g Hup Hg Hkeyed)].
  destruct (zones_of (tables (db w))) as [z'|] eqn:Hz;
    [|by rewrite (queries_main_no_zone_names w g z Hup Hg Hkeyed Hz)].
  by rewrite (queries_main_ok w g z' Hup Hg Hz).
Qed.

(** X15. How a run of the query script ends, and what reached the server.
    With the server down: an OperationalError and no statement. Without
    a usable [green_taxi_data]: pandas' DatabaseError on q3. With it, but
    without a [zones] whose LocationID is a numeric column: q3 and q4 are
    answered and q5 raises the DatabaseError. With such a [zones] whose
    Zone is not a text column: q3, q4 and q5 are answered and q6 raises
    it. Otherwise all four are answered. A statement that fails is the
    last one sent: the later ones are never executed. *)
Theorem queries_main_outcome w :
  ((queries_main w).1, requests_during queries_main w) =
    if up (db w) then
      match trips_of (tables (db w)) with
      | None => (inl DatabaseError, [Select Q3])
      | Some _ =>
          match zones_keyed_of (tables (db w)) with
          | None => (inl DatabaseError, [Select Q3; Select Q4; Select Q5])
          | Some _ =>
              match zones_of (tables (db w)) with
              | None =>
                  (inl DatabaseError,
                   [Select Q3; Select Q4; Select Q5; Select Q6])
              | Some _ =>
                  (inr tt, [Select Q3; Select Q4; Select Q5; Select Q6])
              end
          end
      end
    else (inl OperationalError, []).
Proof.
  unfold requests_during.
  destruct (up (db w)) eqn:Hup.
  2:{ rewrite (queries_main_down w Hup). cbn [fst snd db]. by rewrite drop_all. }
  destruct (trips_of (tables (db w))) as [g|] eqn:Hg.
  2:{ rewrite (queries_main_no_trips w Hup Hg). cbn [fst snd db requests].
      by rewrite drop_app_length. }
  destruct (zones_keyed_of (tables (db w))) as [z|] eqn:Hkeyed.
  2:{ rewrite (queries_main_no_zones w g Hup Hg Hkeyed).
      cbn [fst snd db requests]. by rewrite drop_app_length. }
  destruct (zones_of (tables (db w))) as [z'|] eqn:Hz.
  - rewrite (queries_main_ok w g z' Hup Hg Hz). cbn [fst snd db requests].
    by rewrite drop_app_length.
  - rewrite (queries_main_no_zone_names w g z Hup Hg Hkeyed Hz).
    cbn [fst snd db requests]. by rewrite drop_app_length.
Qed.

(** X16. With the trip relation in place and no zone relation that q5
    can use (none at all, or one whose LocationID is a text column), the
    results of q3 and q4 are on the standard output when the run stops at
    q5 with pandas' DatabaseError; the heading and the text of q5 are
    printed too, its result and everything about q6 are not. *)
Theorem queries_main_stops_at_q5 w g :
  up (db w) = true →
  trips_of (tables (db w)) = Some g →
  zones_keyed_of (tables (db w)) = None →
  (queries_main w).1 = inl DatabaseError ∧
  stdout (queries_main w).2 =
    stdout w ++
    query_block 3 "Counting short trips (distance <= 1 mile)" Q3
      (Counts (q3 g)) ++
    query_block 4 "Day with longest trip distance" Q4 (DayMax (q4 g)) ++
    query_header 5 "Pickup zone with largest total_amount on Nov 18" Q5.
Proof.
  intros Hup Hg Hz. by rewrite (queries_main_no_zones w g Hup Hg Hz).
Qed.

(** X17. A second run of the query script right after a complete one is
    complete too and prints the same results again. *)
Theorem queries_main_rerun w :
  succeeded (queries_main w) = true →
  let w1 := (queries_main w).2 in
  ∃ g z,
    trips_of (tables (db w)) = Some g ∧ zones_of (tables (db w)) = Some z ∧
    (queries_main w1).1 = inr tt ∧
    stdout (queries_main w1).2 =
      stdout w ++ queries_transcript g z ++ queries_transcript g z.
Proof.
  intros (Hup & [g Hg] & [z Hz])%queries_main_needs w1. subst w1.
  exists g, z. rewrite (queries_main_ok w g z Hup Hg Hz). cbn [snd].
  erewrite queries_main_ok; [|reflexivity|done|done].
  cbn [fst snd stdout]. by rewrite <- app_assoc.
Qed.

End queries_proofs.

(** * The two homework scripts together *)

Section scripts_together.
Import Homework.
Context {num : Type} `{Numeric num}.

(** The relation that [to_sql] makes of the zone frame, as the queries
    can use it. *)
Lemma zones_of_Zones (t : gmap string (table num)) zs :
  (∃ zr, zr ∈ zs ∧ is_Some (Zone zr)) →
  zones_of (<["zones" := Zones zs]> t) = Some zs.
Proof.
  intros (zr & Hzr & Hname). unfold zones_of, Zones.
  rewrite lookup_insert_eq. destruct zs as [|z0 zs']; [by apply elem_of_nil in Hzr|].
  unfold zone_columns_of. cbn [LocationID_type Zone_type].
  assert (existsb (λ r, bool_decide (is_Some (Zone r))) (z0 :: zs') = true) as ->.
  { apply existsb_exists. exists zr. split; [by apply list_elem_of_In|].
    by apply bool_decide_eq_true. }
  by destruct (forallb _ _).
Qed.

Lemma zones_keyed_of_Zones_nil (t : gmap string (table num)) :
  zones_keyed_of (<["zones" := Zones []]> t) = None.
Proof. unfold zones_keyed_of, Zones. by rewrite lookup_insert_eq. Qed.

Lemma zones_of_Zones_unnamed (t : gmap string (table num)) zs :
  zs ≠ [] → (∀ zr, zr ∈ zs → Zone zr = None) →
  zones_keyed_of (<["zones" := Zones zs]> t) = Some zs ∧
  zones_of (<["zones" := Zones zs]> t) = None.
Proof.
  intros Hrows Hnone. unfold zones_keyed_of, zones_of, Zones.
  rewrite lookup_insert_eq. destruct zs as [|z0 zs']; [done|].
  unfold zone_columns_of. cbn [LocationID_type Zone_type].
  assert (existsb (λ r, bool_decide (is_Some (Zone r))) (z0 :: zs') = false) as ->.
  { apply not_true_is_false. intros (zr & Hzr%list_elem_of_In & Hname)%existsb_exists.
    apply bool_decide_eq_true in Hname. rewrite (Hnone zr Hzr) in Hname.
    by destruct Hname. }
  by destruct (forallb _ _).
Qed.

(** X22. The query script after a complete ingestion. When some row of
    the zone file has a zone name, it runs to the end, and what it prints
    is computed from the rows of the two source files and from nothing
    else. When the zone file has no row, pandas gives both columns of
    [zones] the type text, and the run stops at q5 with a DatabaseError.
    When it has rows but no zone name at all, the Zone column is
    numeric, and the run stops at q6. *)
Theorem ingest_then_queries (w : world num) green zs :
  files w !! "green_tripdata_2025-11.parquet" = Some (Parquet green) →
  files w !! "taxi_zone_lookup.csv" = Some (Csv zs) →
  up (db w) = true →
  let w1 := (ingest_main w).2 in
  ((∃ zr, zr ∈ zs ∧ is_Some (Zone zr)) →
     (queries_main w1).1 = inr tt ∧
     stdout (queries_main w1).2 = stdout w1 ++ queries_transcript green zs ∧
     requests_during queries_main w1 =
       [Select Q3; Select Q4; Select Q5; Select Q6]) ∧
  (zs = [] →
     (queries_main w1).1 = inl DatabaseError ∧
     requests_during queries_main w1 = [Select Q3; Select Q4; Select Q5]) ∧
  (zs ≠ [] → (∀ zr, zr ∈ zs → Zone zr = None) →
     (queries_main w1).1 = inl DatabaseError ∧
     requests_during queries_main w1 =
       [Select Q3; Select Q4; Select Q5; Select Q6]).
Proof.
  intros Hgreen Hzones Hup w1.
  destruct (ingest_main_ok w green zs Hgreen Hzones Hup) as (_ & _ & Hdb).
  fold w1 in Hdb.
  assert (up (db w1) = true) as Hup1 by (by rewrite Hdb).
  assert (trips_of (tables (db w1)) = Some green) as Hg.
  { rewrite Hdb. unfold trips_of. cbn [tables].
    by rewrite lookup_insert_ne, lookup_insert_eq. }
  assert (tables (db w1) =
          <["zones" := Zones zs]>
            (<["green_taxi_data" := Trips green]> (tables (db w)))) as Htables
    by (by rewrite Hdb).
  unfold requests_during. split_and!.
  - intros Hnamed.
    assert (zones_of (tables (db w1)) = Some zs) as Hz
      by (rewrite Htables; by apply zones_of_Zones).
    rewrite (queries_main_ok w1 green zs Hup1 Hg Hz).
    cbn [fst snd stdout db requests]. by rewrite drop_app_length.
  - intros ->.
    assert (zones_keyed_of (tables (db w1)) = None) as Hz
      by (rewrite Htables; apply zones_keyed_of_Zones_nil).
    rewrite (queries_main_no_zones w1 green Hup1 Hg Hz).
    cbn [fst snd db requests]. by rewrite drop_app_length.
  - intros Hrows Hnone.
    destruct (zones_of_Zones_unnamed
                (<["green_taxi_data" := Trips green]> (tables (db w))) zs
                Hrows Hnone) as [Hkeyed Hz].
    rewrite <- Htables in Hkeyed, Hz.
    rewrite (queries_main_no_zone_names w1 green zs Hup1 Hg Hkeyed Hz).
    cbn [fst snd db requests]. by rewrite drop_app_length.
Qed.

End scripts_together.

Section queries_examples.
Import Homework.

(** C1, as the spec has it, fails: a complete run over the demo database
    sends four statements to the server, not five. *)
Lemma queries_main_not_five :
  succeeded (queries_main demo_world) = true ∧
  requests_during queries_main demo_world
    = [Select Q3; Select Q4; Select Q5; Select Q6] ∧
  length (requests_during queries_main demo_world) ≠ 5%nat.
Proof. split_and!; [by vm_compute|by vm_compute|by vm_compute]. Qed.

Lemma queries_main_four_statements_witness :
  ∃ g z,
    trips_of (tables (db demo_world)) = Some g ∧
    zones_of (tables (db demo_world)) = Some z ∧
    requests_during queries_main demo_world
      = [Select Q3; Select Q4; Select Q5; Select Q6] ∧
    stdout (queries_main demo_world).2
      = stdout demo_world ++ queries_transcript g z ∧
    tables (db (queries_main demo_world).2) = tables (db demo_world).
Proof.
  apply (queries_main_four_statements demo_world). by vm_compute.
Defined.

Lemma ingest_main_twice_witness :
  let w1 := (ingest_main demo_fresh_world).2 in
  let w2 := (ingest_main w1).2 in
  (ingest_main demo_fresh_world).1 = inr tt ∧ (ingest_main w1).1 = inr tt ∧
  files w2 = files demo_fresh_world ∧
  tables (db w2) !! "green_taxi_data" = Some (Trips demo_trips) ∧
  tables (db w2) !! "zones" = Some (Zones demo_zones) ∧
  tables (db w2) = tables (db w1) ∧
  (∀ name, name ≠ "green_taxi_data" → name ≠ "zones" →
     tables (db w2) !! name = tables (db demo_fresh_world) !! name) ∧
  requests_during ingest_main w1 = [Replace "green_taxi_data"; Replace "zones"].
Proof.
  apply (ingest_main_twice demo_fresh_world demo_trips demo_zones);
    reflexivity.
Defined.

Lemma ingest_main_partial_load_witness :
  let w' := (ingest_main demo_no_zone_file_world).2 in
  ∃ green,
    files demo_no_zone_file_world !! "green_tripdata_2025-11.parquet"
      = Some (Parquet green) ∧
    (∀ zs, files demo_no_zone_file_world !! "taxi_zone_lookup.csv"
             ≠ Some (Csv zs)) ∧
    tables (db w') = <["green_taxi_data" := Trips green]>
                       (tables (db demo_no_zone_file_world)) ∧
    tables (db w') !! "green_taxi_data" = Some (Trips green) ∧
    (∀ name, name ≠ "green_taxi_data" →
       tables (db w') !! name = tables (db demo_no_zone_file_world) !! name) ∧
    requests_during ingest_main demo_no_zone_file_world
      = [Replace "green_taxi_data"].
Proof.
  apply (ingest_main_partial_load demo_no_zone_file_world).
  - reflexivity.
  - vm_compute. discriminate.
Defined.

(** The mixed state of that run, by evaluation: new trips, old zones. *)
Example ingest_main_mixed_state :
  (ingest_main demo_no_zone_file_world).1 = inl FileNotFoundError ∧
  trips_of (tables (db (ingest_main demo_no_zone_file_world).2))
    = Some demo_trips ∧
  zones_of (tables (db (ingest_main demo_no_zone_file_world).2))
    = Some demo_old_zones.
Proof. by vm_compute. Qed.

Lemma q3_counts_zero_witness :
  execute Q3 (<["green_taxi_data" := Trips demo_long_trips]> ∅)
    = Some (Counts [0]) ∧
  q3 demo_long_trips = [0] ∧ length (q3 demo_long_trips) = 1%nat.
Proof.
  apply (q3_counts_zero _ demo_long_trips).
  - reflexivity.
  - intros r ts d Hr Hts Hd Hrange. unfold demo_long_trips in Hr.
    repeat (apply elem_of_cons in Hr as [->|Hr]);
      [cbn in Hts, Hd; injection Hts as <-; injection Hd as <-; reflexivity
      |cbn in Hts; injection Hts as <-; vm_compute in Hrange;
       destruct Hrange as [Hlo _]; by destruct Hlo
      |by cbn in Hd
      |by apply elem_of_nil in Hr].
Defined.

(** q4 on the demo trips: the 120-mile trip of 19 November takes no part,
    and the day returned is 20 November with its 50-mile trip. *)
Example q4_demo :
  q4 demo_trips = [(Some (date_lit 2025 11 20), Some 50)].
Proof. by vm_compute. Qed.

(** q5 and q6 on the demo data: a zone without a name is a group of its
    own. *)
Example q5_q6_demo :
  q5 demo_trips demo_zones = [(Some "East Harlem North", Some 50)] ∧
  q6 demo_trips demo_zones = [(None, Some 5); (Some "East Harlem South", Some 3)].
Proof. by vm_compute. Qed.

Lemma q5_rows_origin_witness :
  (∃ t zr n, t ∈ demo_trips ∧ zr ∈ demo_zones ∧
     Zone zr = Some "East Harlem North" ∧
     PULocationID t = Some n ∧ LocationID zr = Some n ∧
     DATE (lpep_pickup_datetime t) = Some (date_lit 2025 11 18)) ∧
  (Some 50 = None ↔
   ∀ t zr n, t ∈ demo_trips → zr ∈ demo_zones →
     Zone zr = Some "East Harlem North" →
     PULocationID t = Some n → LocationID zr = Some n →
     DATE (lpep_pickup_datetime t) = Some (date_lit 2025 11 18) →
     total_amount t = None).
Proof.
  apply (q5_rows_origin demo_trips demo_zones (Some "East Harlem North") (Some 50)).
  apply (bool_decide_unpack _). by vm_compute.
Defined.

Lemma q6_max_tip_witness :
  (∃ t pu_zone do_zone,
     q6_selects demo_trips demo_zones t pu_zone do_zone ∧
     Zone do_zone = Some "East Harlem South") ∧
  (∀ v, Some 3 = Some v →
     ∃ t pu_zone do_zone,
       q6_selects demo_trips demo_zones t pu_zone do_zone ∧
       Zone do_zone = Some "East Harlem South" ∧ tip_amount t = Some v) ∧
  (∀ t pu_zone do_zone tip,
     q6_selects demo_trips demo_zones t pu_zone do_zone →
     Zone do_zone = Some "East Harlem South" →
     tip_amount t = Some tip →
     ∃ v, Some 3 = Some v ∧ num_le tip v = true).
Proof.
  apply (q6_max_tip demo_trips demo_zones (Some "East Harlem South") (Some 3)).
  apply (bool_decide_unpack _). by vm_compute.
Defined.

Lemma q4_ignores_excluded_witness :
  q4 ([demo_trip (timestamp_lit 2025 11 18 + 5) 74 75 1 3 20] ++
      demo_trip (timestamp_lit 2025 11 19) 75 74 120 9 10 ::
      [demo_trip (timestamp_lit 2025 11 20) 42 74 50 1 10]) =
  q4 ([demo_trip (timestamp_lit 2025 11 18 + 5) 74 75 1 3 20] ++
      [demo_trip (timestamp_lit 2025 11 20) 42 74 50 1 10]).
Proof.
  apply q4_ignores_excluded. right. exists 120. split; reflexivity.
Defined.

Lemma q5_ignores_unmatched_witness :
  q5 ([demo_trip (timestamp_lit 2025 11 18 + 5) 74 75 1 3 20] ++
      demo_trip (timestamp_lit 2025 11 20) 42 74 50 1 10 :: []) demo_zones =
  q5 ([demo_trip (timestamp_lit 2025 11 18 + 5) 74 75 1 3 20] ++ []) demo_zones.
Proof.
  apply q5_ignores_unmatched. left. by vm_compute.
Defined.

Lemma queries_main_stops_at_q5_witness :
  (queries_main demo_no_zones_world).1 = inl DatabaseError ∧
  stdout (queries_main demo_no_zones_world).2 =
    stdout demo_no_zones_world ++
    query_block 3 "Counting short trips (distance <= 1 mile)" Q3
      (Counts (q3 demo_trips)) ++
    query_block 4 "Day with longest trip distance" Q4 (DayMax (q4 demo_trips)) ++
    query_header 5 "Pickup zone with largest total_amount on Nov 18" Q5.
Proof.
  apply (queries_main_stops_at_q5 demo_no_zones_world demo_trips); reflexivity.
Defined.

Lemma queries_main_rerun_witness :
  let w1 := (queries_main demo_world).2 in
  ∃ g z,
    trips_of (tables (db demo_world)) = Some g ∧
    zones_of (tables (db demo_world)) = Some z ∧
    (queries_main w1).1 = inr tt ∧
    stdout (queries_main w1).2 =
      stdout demo_world ++ queries_transcript g z ++ queries_transcript g z.
Proof.
  apply (queries_main_rerun demo_world). by vm_compute.
Defined.

Lemma ingest_main_early_failure_witness :
  succeeded (ingest_main demo_down_world) = false ∧
  db (ingest_main demo_down_world).2 = db demo_down_world.
Proof.
  apply (ingest_main_early_failure demo_down_world). right. reflexivity.
Defined.

Lemma ingest_main_repair_witness :
  let put_zone_file (w0 : world Z) :=
    {| stdout := stdout w0;
       files := <["taxi_zone_lookup.csv" := Csv demo_zones]> (files w0);
       db := db w0 |} in
  let w1 := (ingest_main demo_no_zone_file_world).2 in
  succeeded (ingest_main demo_no_zone_file_world) = false ∧
  (ingest_main (put_zone_file w1)).1 = inr tt ∧
  tables (db (ingest_main (put_zone_file w1)).2) =
    tables (db (ingest_main (put_zone_file demo_no_zone_file_world)).2).
Proof.
  apply (ingest_main_repair demo_no_zone_file_world demo_trips demo_zones).
  - reflexivity.
  - reflexivity.
  - intros zs'. by vm_compute.
Defined.

Lemma ingest_then_queries_witness :
  let w1 := (ingest_main demo_fresh_world).2 in
  (queries_main w1).1 = inr tt ∧
  stdout (queries_main w1).2 = stdout w1 ++ queries_transcript demo_trips demo_zones ∧
  requests_during queries_main w1 =
    [Select Q3; Select Q4; Select Q5; Select Q6].
Proof.
  pose proof (ingest_then_queries demo_fresh_world demo_trips demo_zones
                eq_refl eq_refl eq_refl) as Hcases.
  cbv zeta in Hcases. destruct Hcases as (Hnamed & _ & _).
  apply Hnamed.
  exists {| LocationID := Some 74; Zone := Some "East Harlem North" |}.
  split; [left|by eexists].
Defined.

(** The two other cases, by evaluation: a zone file with a header and no
    row, and a zone file whose rows have no zone name. *)
Example ingest_then_queries_untyped_zones :
  (queries_main (ingest_main demo_header_only_world).2).1 = inl DatabaseError ∧
  requests_during queries_main (ingest_main demo_header_only_world).2
    = [Select Q3; Select Q4; Select Q5] ∧
  (queries_main (ingest_main demo_unnamed_zones_world).2).1 = inl DatabaseError ∧
  requests_during queries_main (ingest_main demo_unnamed_zones_world).2
    = [Select Q3; Select Q4; Select Q5; Select Q6].
Proof. by vm_compute. Qed.

End queries_examples.
